(** * EthernetServer (drivers/Linux/EthernetServer.cpp)

    A shallow embedding of the Linux [EthernetServer] of MySensors: the
    bounded pool of accepted TCP connections with its accept cycle
    ([hasClient], [_accept], [available]) and its broadcast writer
    ([write]).  The server object is a record, the operating system and the
    peers are an explicit [World] that every operation threads through, and
    the one loop of the source that may fail to terminate ([write]) takes
    fuel. *)

From Stdlib Require Import ZArith Lia.
From stdpp Require Import base list.

(** ** Machine integers *)

(** [size_t] on the Linux targets of the driver is 64 bits wide; additions
    on it wrap around. *)
Definition size_t_wrap (z : Z) : Z := (z mod 2 ^ 64)%Z.

(** [errno] values of Linux; [EWOULDBLOCK] is the same number as [EAGAIN]. *)
Definition EAGAIN : Z := 11%Z.
Definition EWOULDBLOCK : Z := 11%Z.

(** ** The world outside the server *)

(** One entry of the list [getaddrinfo] returns, reduced to what [begin]
    asks the operating system about it: the result of [socket] (-1 on
    failure), whether [setsockopt] succeeds and whether [bind] succeeds. *)
Record addrinfo := mk_addrinfo {
  ai_socket : Z;
  ai_setsockopt : bool;
  ai_bind : bool
}.

(** Modelled from the spec: the operating system and the peers, which the
    source reaches through [EthernetClient] (EthernetClient.h and
    EthernetClient.cpp are missing from the sources at hand) and through the
    socket calls.  A handle has two live-queried properties, read from the
    world on each check: connected ([peer_connected], the peer has not
    closed) and pending input ([peer_input], the number of unread bytes).
    [peer_accepts fd size] is the number of bytes the socket takes from a
    write of [size] bytes.  [backlog] holds the results the next calls of
    [accept] return, as pairs of the returned descriptor and [errno].
    [closed] and [sent] are traces: the descriptors closed so far, oldest
    first, and the writes performed, each with the byte count it took. *)
Record World := mk_World {
  peer_connected : Z -> bool;
  peer_input : Z -> Z;
  peer_accepts : Z -> nat -> nat;
  getaddrinfo : Z -> Z -> option (list addrinfo);
  listen_ok : bool;
  backlog : list (Z * Z);
  closed : list Z;
  sent : list (Z * Z)
}.

Definition set_backlog (w : World) (b : list (Z * Z)) : World :=
  mk_World (peer_connected w) (peer_input w) (peer_accepts w) (getaddrinfo w)
           (listen_ok w) b (closed w) (sent w).

Definition set_closed (w : World) (c : list Z) : World :=
  mk_World (peer_connected w) (peer_input w) (peer_accepts w) (getaddrinfo w)
           (listen_ok w) (backlog w) c (sent w).

Definition set_sent (w : World) (t : list (Z * Z)) : World :=
  mk_World (peer_connected w) (peer_input w) (peer_accepts w) (getaddrinfo w)
           (listen_ok w) (backlog w) (closed w) t.

(** The peer of descriptor [fd] changes state: it is connected or not, and
    [a] bytes of its input are unread. *)
Definition set_peer (w : World) (fd : Z) (c : bool) (a : Z) : World :=
  mk_World (fun x => if (x =? fd)%Z then c else peer_connected w x)
           (fun x => if (x =? fd)%Z then a else peer_input w x)
           (peer_accepts w) (getaddrinfo w) (listen_ok w) (backlog w)
           (closed w) (sent w).

(** Modelled from the spec: the [accept] system call on the non-blocking
    listening socket.  With nothing waiting it returns -1 with [EAGAIN]
    (would block) and changes nothing; otherwise it consumes the next
    result. *)
Definition os_accept (w : World) : Z * Z * World :=
  match backlog w with
  | [] => ((-1)%Z, EAGAIN, w)
  | (new_fd, errno) :: rest => (new_fd, errno, set_backlog w rest)
  end.

(** Modelled from the spec: the [close] system call, as a trace. *)
Definition os_close (w : World) (fd : Z) : World :=
  set_closed w (closed w ++ [fd]).

Module EthernetClient.

(** Modelled from the spec: class [EthernetClient], whose header and
    implementation are missing.  The server builds it in two ways:
    [EthernetClient()], the handle that stands for no connection, and
    [EthernetClient(sock)], the handle of descriptor [sock]. *)
Inductive t : Type :=
| Default : t
| Of (sock : Z) : t.

(** Modelled from the spec: [EthernetClient::connected], the peer has not
    closed; re-evaluated from the world on each call. *)
Definition connected (w : World) (c : t) : bool :=
  match c with
  | Default => false
  | Of sock => peer_connected w sock
  end.

(** Modelled from the spec: [EthernetClient::available], the number of
    unread bytes; re-evaluated from the world on each call. *)
Definition available (w : World) (c : t) : Z :=
  match c with
  | Default => 0%Z
  | Of sock => peer_input w sock
  end.

(** Modelled from the spec: [EthernetClient::write], one write of the
    buffer; returns the bytes actually written, at most the size of the
    buffer, and a partial write is not retried. *)
Definition write (w : World) (c : t) (buffer : list Z) : Z * World :=
  match c with
  | Default => (0%Z, w)
  | Of sock =>
      let k := Z.of_nat (peer_accepts w sock (length buffer) `min` length buffer) in
      (k, set_sent w (sent w ++ [(sock, k)]))
  end.

(** Modelled from the spec: [EthernetClient::stop], which closes the
    descriptor of the handle. *)
Definition stop (w : World) (c : t) : World :=
  match c with
  | Default => w
  | Of sock => os_close w sock
  end.

End EthernetClient.

(** ** Vector and list operations of the source *)

(** [v.pop_back()] of [std::vector]. *)
Definition pop_back (v : list Z) : list Z := take (length v - 1) v.

(** [clients[i] = clients.back(); clients.pop_back();]: removal by
    overwriting slot [i] with the last element and dropping the last slot.
    The source only runs it with [i < clients.size()]. *)
Definition evict_at (i : nat) (v : list Z) : list Z :=
  match last v with
  | Some b => pop_back (<[i := b]> v)
  | None => v
  end.

(** The dead criterion of the scan over [new_clients]:
    [!client.connected() && !client.available()]. *)
Definition is_dead (w : World) (fd : Z) : bool :=
  negb (EthernetClient.connected w (EthernetClient.Of fd))
  && (EthernetClient.available w (EthernetClient.Of fd) =? 0)%Z.

(** The keep criterion of the scan over [clients]:
    [client.connected() || client.available()]. *)
Definition is_live (w : World) (fd : Z) : bool :=
  EthernetClient.connected w (EthernetClient.Of fd)
  || negb (EthernetClient.available w (EthernetClient.Of fd) =? 0)%Z.

(** The scan [for (size_t i = 0; i < clients.size();)] of [_accept] up to
    its [break]: the index of the first handle that fails the keep
    criterion, if there is one.  [rest] is the part of the vector from
    index [i] on; the vector is not changed before the [break]. *)
Fixpoint first_dead (w : World) (rest : list Z) (i : nat) : option nat :=
  match rest with
  | [] => None
  | fd :: rest' => if is_live w fd then first_dead w rest' (S i) else Some i
  end.

(** The scan over the list [new_clients] of [_accept]: the list with its
    first dead handle erased, if there is one. *)
Fixpoint erase_dead (w : World) (l : list Z) : option (list Z) :=
  match l with
  | [] => None
  | fd :: rest =>
      if is_dead w fd then Some rest
      else match erase_dead w rest with
           | Some rest' => Some (fd :: rest')
           | None => None
           end
  end.

(** [strlen]: the number of bytes before the first NUL of the memory a
    [char] pointer points to. *)
Fixpoint strlen (mem : list Z) : nat :=
  match mem with
  | [] => 0
  | c :: mem' => if (c =? 0)%Z then 0 else S (strlen mem')
  end.

Module EthernetServer.

(** The fields of the class. *)
Record t := mk {
  port : Z;
  max_clients : Z;
  sockfd : Z;
  clients : list Z;
  new_clients : list Z
}.

Definition set_sockfd (s : t) (fd : Z) : t :=
  mk (port s) (max_clients s) fd (clients s) (new_clients s).

Definition set_clients (s : t) (v : list Z) : t :=
  mk (port s) (max_clients s) (sockfd s) v (new_clients s).

Definition set_new_clients (s : t) (l : list Z) : t :=
  mk (port s) (max_clients s) (sockfd s) (clients s) l.

(** [EthernetServer::EthernetServer(port, max_clients)], both arguments
    [uint16_t] values.  [reserve] does not change the contents of the
    vector; [sockfd] is not initialised by the constructor, so its first
    value is a parameter here. *)
Definition make (port max_clients sockfd0 : Z) : t :=
  mk port max_clients sockfd0 [] [].

(** What [begin] reports. *)
Inductive begin_report : Type :=
| GetaddrinfoFailed
| SetsockoptFailed
| FailedToBind
| ListenFailed
| Listening.

(** The loop of [begin] over the results of [getaddrinfo]: [Some true]
    after [break] (bound), [Some false] when [setsockopt] failed (the
    function returns), [None] when the list is exhausted ([p == NULL]). *)
Fixpoint bind_first (l : list addrinfo) (s : t) (w : World)
  : option bool * t * World :=
  match l with
  | [] => (None, s, w)
  | p :: l' =>
      let s1 := set_sockfd s (ai_socket p) in
      if (ai_socket p =? -1)%Z then bind_first l' s1 w
      else if negb (ai_setsockopt p) then (Some false, s1, w)
      else if negb (ai_bind p) then bind_first l' s1 (os_close w (ai_socket p))
      else (Some true, s1, w)
  end.

(** [EthernetServer::begin(IPAddress address)]. *)
Definition begin_at (address : Z) (s : t) (w : World)
  : begin_report * t * World :=
  match getaddrinfo w address (port s) with
  | None => (GetaddrinfoFailed, s, w)
  | Some servinfo =>
      match bind_first servinfo s w with
      | (Some false, s1, w1) => (SetsockoptFailed, s1, w1)
      | (None, s1, w1) => (FailedToBind, s1, w1)
      | (Some true, s1, w1) =>
          if listen_ok w1 then (Listening, s1, w1)
          else (ListenFailed, s1, w1)
      end
  end.

(** [EthernetServer::begin()]: [begin(IPAddress(0,0,0,0))]. *)
Definition begin (s : t) (w : World) : begin_report * t * World :=
  begin_at 0%Z s w.

(** What one run of [_accept] reports: the capacity message, nothing
    (would block), [perror("accept")], or the new connection. *)
Inductive accept_report : Type :=
| MaxClientsReached
| WouldBlock
| AcceptFailed (errno : Z)
| NewConnection (new_fd : Z).

(** The first part of [_accept]: the search for a dead client when
    [new_clients.size() + clients.size() == max_clients].  [None] stands
    for [no_free_slots] still true after both scans. *)
Definition reclaim (s : t) (w : World) : option t :=
  if (Z.of_nat (length (new_clients s) + length (clients s)) =? max_clients s)%Z
  then
    match first_dead w (clients s) 0 with
    | Some i => Some (set_clients s (evict_at i (clients s)))
    | None =>
        match erase_dead w (new_clients s) with
        | Some l => Some (set_new_clients s l)
        | None => None
        end
    end
  else Some s.

(** [EthernetServer::_accept()]. *)
Definition _accept (s : t) (w : World) : accept_report * t * World :=
  match reclaim s w with
  | None => (MaxClientsReached, s, w)
  | Some s1 =>
      let '(new_fd, errno, w1) := os_accept w in
      if (new_fd =? -1)%Z then
        if negb (errno =? EAGAIN)%Z && negb (errno =? EWOULDBLOCK)%Z
        then (AcceptFailed errno, s1, w1)
        else (WouldBlock, s1, w1)
      else
        (NewConnection new_fd,
         mk (port s1) (max_clients s1) (sockfd s1)
            (clients s1 ++ [new_fd]) (new_clients s1 ++ [new_fd]),
         w1)
  end.

(** [EthernetServer::hasClient()]. *)
Definition hasClient (s : t) (w : World) : bool * t * World :=
  let '(_, s1, w1) := _accept s w in
  (match new_clients s1 with [] => false | _ :: _ => true end, s1, w1).

(** [EthernetServer::available()]. *)
Definition available (s : t) : EthernetClient.t * t :=
  match new_clients s with
  | [] => (EthernetClient.Default, s)
  | sock :: rest => (EthernetClient.Of sock, set_new_clients s rest)
  end.

(** The loop of [write(const uint8_t *buffer, size_t size)], with the
    locals [i] and [n] and the vector [clients] as its state.  One unit
    of fuel is one evaluation of the loop condition; [None] is fuel
    exhausted.  [v !! i] is [Some] exactly when [i < clients.size()]. *)
Fixpoint write_loop (fuel : nat) (buffer : list Z)
         (i : nat) (n : Z) (v : list Z) (w : World)
  : option (Z * list Z * World) :=
  match fuel with
  | O => None
  | S fuel' =>
      match v !! i with
      | None => Some (n, v, w)
      | Some fd =>
          let client := EthernetClient.Of fd in
          if EthernetClient.connected w client then
            let '(k, w1) := EthernetClient.write w client buffer in
            write_loop fuel' buffer (S i) (size_t_wrap (n + k)) v w1
          else if (EthernetClient.available w client =? 0)%Z then
            write_loop fuel' buffer i n (evict_at i v)
                       (EthernetClient.stop w client)
          else
            write_loop fuel' buffer i n v w
      end
  end.

(** [EthernetServer::write(const uint8_t *buffer, size_t size)]; the
    buffer is the list of its [size] bytes. *)
Definition write (fuel : nat) (s : t) (w : World) (buffer : list Z)
  : option (Z * t * World) :=
  match write_loop fuel buffer 0 0%Z (clients s) w with
  | Some (n, v, w1) => Some (n, set_clients s v, w1)
  | None => None
  end.

(** [EthernetServer::write(uint8_t b)]. *)
Definition write_byte (fuel : nat) (s : t) (w : World) (b : Z)
  : option (Z * t * World) :=
  write fuel s w [b].

(** [EthernetServer::write(const char *str)]; [None] is the NULL pointer,
    [Some mem] a pointer to the bytes [mem]. *)
Definition write_str (fuel : nat) (s : t) (w : World) (str : option (list Z))
  : option (Z * t * World) :=
  match str with
  | None => Some (0%Z, s, w)
  | Some mem => write fuel s w (take (strlen mem) mem)
  end.

(** [EthernetServer::write(const char *buffer, size_t size)]. *)
Definition write_chars (fuel : nat) (s : t) (w : World) (buffer : list Z)
  : option (Z * t * World) :=
  write fuel s w buffer.

End EthernetServer.

(** ** Sequences of calls *)

(** The calls a client of the class can make, and between them the events
    of the world: a peer changes state, or the listening socket gets a new
    result for [accept] to return. *)
Inductive op : Type :=
| OpBegin
| OpHasClient
| OpAvailable
| OpWrite (buffer : list Z)
| OpWriteByte (b : Z)
| OpWriteStr (str : option (list Z))
| OpPeerEvent (fd : Z) (c : bool) (a : Z)
| OpInbound (new_fd errno : Z).

Definition step (fuel : nat) (o : op) (st : EthernetServer.t * World)
  : option (EthernetServer.t * World) :=
  let '(s, w) := st in
  match o with
  | OpBegin => let '(_, s1, w1) := EthernetServer.begin s w in Some (s1, w1)
  | OpHasClient => let '(_, s1, w1) := EthernetServer.hasClient s w in Some (s1, w1)
  | OpAvailable => Some ((EthernetServer.available s).2, w)
  | OpWrite buffer =>
      match EthernetServer.write fuel s w buffer with
      | Some (_, s1, w1) => Some (s1, w1)
      | None => None
      end
  | OpWriteByte b =>
      match EthernetServer.write_byte fuel s w b with
      | Some (_, s1, w1) => Some (s1, w1)
      | None => None
      end
  | OpWriteStr str =>
      match EthernetServer.write_str fuel s w str with
      | Some (_, s1, w1) => Some (s1, w1)
      | None => None
      end
  | OpPeerEvent fd c a => Some (s, set_peer w fd c a)
  | OpInbound new_fd errno => Some (s, set_backlog w (backlog w ++ [(new_fd, errno)]))
  end.

Fixpoint run (fuel : nat) (ops : list op) (st : EthernetServer.t * World)
  : option (EthernetServer.t * World) :=
  match ops with
  | [] => Some st
  | o :: ops' =>
      match step fuel o st with
      | Some st1 => run fuel ops' st1
      | None => None
      end
  end.

(** A world with no peers and nothing to accept. *)
Definition quiet_world : World :=
  mk_World (fun _ => false) (fun _ => 0%Z) (fun _ size => size)
           (fun _ _ => None) true [] [] [].

(** [|Active| + |Pending|]. *)
Definition tracked (s : EthernetServer.t) : Z :=
  Z.of_nat (length (EthernetServer.new_clients s) + length (EthernetServer.clients s)).

(** A handle is dead when it is not connected and has no pending input. *)
Definition dead (w : World) (fd : Z) : Prop :=
  peer_connected w fd = false /\ peer_input w fd = 0%Z.

(** A handle is live when it is connected or has pending input. *)
Definition live (w : World) (fd : Z) : Prop :=
  peer_connected w fd = true \/ peer_input w fd <> 0%Z.

(** A handle is half-closed when it is not connected but still has pending
    input. *)
Definition half_closed (w : World) (fd : Z) : Prop :=
  peer_connected w fd = false /\ peer_input w fd <> 0%Z.

(** The bytes the writes of one broadcast of [size] bytes take on the
    handles of [v], summed without wrap-around. *)
Definition total_accepted (w : World) (size : nat) (v : list Z) : Z :=
  foldr (fun fd acc => (Z.of_nat (peer_accepts w fd size `min` size) + acc)%Z) 0%Z v.


(** Every handle of [new_clients] is a handle of [clients]. *)
Definition pending_subset_active (s : EthernetServer.t) : Prop :=
  forall h, h ∈ EthernetServer.new_clients s -> h ∈ EthernetServer.clients s.

(** A handle is connected when the peer has not closed. *)
Definition connected_handle (w : World) (fd : Z) : Prop :=
  peer_connected w fd = true.

#[global] Instance connected_handle_dec (w : World) (fd : Z) :
  Decision (connected_handle w fd).
Proof. unfold connected_handle. apply _. Defined.

#[global] Instance dead_dec (w : World) (fd : Z) : Decision (dead w fd).
Proof. unfold dead. apply _. Defined.

(** The entries one broadcast of [size] bytes adds to the trace of writes
    when it writes to the handles of [v] in order. *)
Definition sent_of (w : World) (size : nat) (v : list Z) : list (Z * Z) :=
  map (fun fd => (fd, Z.of_nat (peer_accepts w fd size `min` size))) v.

(** The descriptors the events of a sequence of calls put in the backlog. *)
Fixpoint inbound_fds (ops : list op) : list Z :=
  match ops with
  | [] => []
  | OpInbound new_fd _ :: ops' => new_fd :: inbound_fds ops'
  | _ :: ops' => inbound_fds ops'
  end.

(** How the loop of [begin] sees an entry of [getaddrinfo]: it passes over
    it ([continue]) when [socket] fails, or when [setsockopt] succeeds and
    [bind] fails; it stops on it with success ([break]) when all three
    succeed. *)
Definition passed_over (p : addrinfo) : Prop :=
  ai_socket p = (-1)%Z \/ (ai_setsockopt p = true /\ ai_bind p = false).

Definition bindable (p : addrinfo) : Prop :=
  ai_socket p <> (-1)%Z /\ ai_setsockopt p = true /\ ai_bind p = true.

(** The entries whose socket was created and whose [bind] then failed. *)
Definition bind_failed (p : addrinfo) : bool :=
  negb (ai_socket p =? -1)%Z && ai_setsockopt p && negb (ai_bind p).

(** The calls that can remove a handle from [clients]. *)
Definition may_evict (o : op) : Prop :=
  o = OpHasClient \/ (exists buffer, o = OpWrite buffer)
  \/ (exists b, o = OpWriteByte b) \/ (exists str, o = OpWriteStr str).

(** ** Removal by overwriting with the last element *)

Lemma pop_back_snoc (v : list Z) (x : Z) : pop_back (v ++ [x]) = v.
Proof.
  unfold pop_back. rewrite length_app. simpl.
  replace (length v + 1 - 1) with (length v) by lia.
  by rewrite take_app_length.
Qed.

(** Evicting slot [length l1] of [l1 ++ x :: l2] keeps the slots before it
    and leaves the slots after it, in another order. *)
Lemma evict_at_middle (l1 l2 : list Z) (x : Z) :
  exists l2', evict_at (length l1) (l1 ++ x :: l2) = l1 ++ l2' /\ l2' ≡ₚ l2.
Proof.
  destruct l2 as [|b l2 _] using rev_ind.
  - exists []. split; [|done].
    unfold evict_at. rewrite last_snoc.
    rewrite insert_app_r_alt by lia.
    replace (length l1 - length l1) with 0 by lia. simpl.
    rewrite pop_back_snoc. by rewrite app_nil_r.
  - exists (b :: l2). split.
    + unfold evict_at.
      replace (l1 ++ x :: l2 ++ [b]) with ((l1 ++ x :: l2) ++ [b])
        by (by rewrite <- app_assoc).
      rewrite last_snoc.
      rewrite <- app_assoc. simpl.
      rewrite insert_app_r_alt by lia.
      replace (length l1 - length l1) with 0 by lia. simpl.
      replace (l1 ++ b :: l2 ++ [b]) with ((l1 ++ b :: l2) ++ [b])
        by (by rewrite <- app_assoc).
      by rewrite pop_back_snoc.
    + apply Permutation_cons_append.
Qed.

(** The same, read at an index of the vector. *)
Lemma evict_at_lookup (v : list Z) (i : nat) (x : Z) :
  v !! i = Some x ->
  exists l2', evict_at i v = take i v ++ l2' /\ l2' ≡ₚ drop (S i) v.
Proof.
  intros Hi.
  pose proof (lookup_lt_Some _ _ _ Hi) as Hlt.
  pose proof (take_drop_middle _ _ _ Hi) as Hv.
  destruct (evict_at_middle (take i v) (drop (S i) v) x) as (l2' & He & Hp).
  rewrite length_take in He.
  replace (i `min` length v) with i in He by lia.
  rewrite Hv in He. by exists l2'.
Qed.

Lemma evict_at_length (v : list Z) (i : nat) (x : Z) :
  v !! i = Some x -> S (length (evict_at i v)) = length v.
Proof.
  intros Hi. destruct (evict_at_lookup v i x Hi) as (l2' & He & Hp).
  pose proof (lookup_lt_Some _ _ _ Hi) as Hlt.
  rewrite He, length_app, length_take, (Permutation_length Hp), length_drop. lia.
Qed.

(** Eviction removes one occurrence of the handle in slot [i] and nothing
    else. *)
Lemma evict_at_perm (v : list Z) (i : nat) (x : Z) :
  v !! i = Some x -> x :: evict_at i v ≡ₚ v.
Proof.
  intros Hi. destruct (evict_at_lookup v i x Hi) as (l2' & He & Hp).
  rewrite He, Hp.
  rewrite <- (take_drop_middle _ _ _ Hi) at 3.
  apply Permutation_middle.
Qed.

(** ** The loop of [write] *)

(** A half-closed handle at or after the current index stops the loop from
    ever reaching its exit: whatever the fuel, it runs out. *)
Lemma write_loop_stuck (buffer : list Z) (h : Z) (fuel : nat) :
  forall (i : nat) (n : Z) (v : list Z) (w : World),
    half_closed w h -> h ∈ drop i v ->
    EthernetServer.write_loop fuel buffer i n v w = None.
Proof.
  induction fuel as [|fuel IH]; intros i n v w Hh Hin; [done|].
  simpl.
  destruct (v !! i) as [fd|] eqn:Hi.
  - rewrite <- (take_drop_middle _ _ _ Hi) in Hin.
    rewrite drop_app_length' in Hin
      by (rewrite length_take; apply lookup_lt_Some in Hi; lia).
    destruct Hh as [Hc Ha].
    destruct (peer_connected w fd) eqn:Hcfd.
    + apply IH; [by split|].
      apply elem_of_cons in Hin as [->|Hin]; [congruence|done].
    + destruct (peer_input w fd =? 0)%Z eqn:Hafd.
      * apply IH; [by split|].
        apply Z.eqb_eq in Hafd.
        apply elem_of_cons in Hin as [->|Hin]; [congruence|].
        destruct (evict_at_lookup v i fd Hi) as (l2' & He & Hp).
        rewrite He, drop_app_length'
          by (rewrite length_take; apply lookup_lt_Some in Hi; lia).
        by rewrite Hp.
      * apply IH; [by split|].
        rewrite <- (take_drop_middle _ _ _ Hi).
        rewrite drop_app_length'
          by (rewrite length_take; apply lookup_lt_Some in Hi; lia).
        done.
  - apply lookup_ge_None in Hi. rewrite drop_ge in Hin by lia.
    by apply elem_of_nil in Hin.
Qed.

Lemma size_t_wrap_add_l (a b : Z) :
  size_t_wrap (size_t_wrap a + b) = size_t_wrap (a + b).
Proof. unfold size_t_wrap. by rewrite Z.add_mod_idemp_l. Qed.


Lemma total_accepted_perm (w : World) (size : nat) (v v' : list Z) :
  v ≡ₚ v' -> total_accepted w size v = total_accepted w size v'.
Proof. induction 1; simpl; lia. Qed.

Lemma size_t_wrap_range (z : Z) : (0 <= size_t_wrap z < 2 ^ 64)%Z.
Proof. unfold size_t_wrap. apply Z.mod_pos_bound. lia. Qed.

Lemma size_t_wrap_small (z : Z) : (0 <= z < 2 ^ 64)%Z -> size_t_wrap z = z.
Proof. unfold size_t_wrap. apply Z.mod_small. Qed.

(** With only connected and dead handles from index [i] on, the loop ends
    within [length v - i] rounds: the connected handles stay, each with one
    write counted, and the dead ones are closed and leave.  The state of
    the peers is that of [w0] throughout; the traces of [w] grow. *)
Lemma write_loop_ok (buffer : list Z) (w0 : World) (m : nat) :
  forall (fuel i : nat) (n : Z) (v : list Z) (w : World),
    peer_connected w = peer_connected w0 ->
    peer_input w = peer_input w0 ->
    peer_accepts w = peer_accepts w0 ->
    length v - i = m -> i <= length v -> m < fuel ->
    (0 <= n < 2 ^ 64)%Z ->
    Forall (fun fd => connected_handle w0 fd \/ dead w0 fd) (drop i v) ->
    exists n' v' w',
      EthernetServer.write_loop fuel buffer i n v w = Some (n', v', w')
      /\ v' ≡ₚ take i v ++ filter (connected_handle w0) (drop i v)
      /\ n' = size_t_wrap
                (n + total_accepted w0 (length buffer)
                       (filter (connected_handle w0) (drop i v)))
      /\ closed w' ≡ₚ closed w ++ filter (dead w0) (drop i v)
      /\ backlog w' = backlog w.
Proof.
  induction m as [|m IH]; intros fuel i n v w Hpc Hpi Hpa Hm Hi Hfuel Hn Hall;
    (destruct fuel as [|fuel]; [lia|]); simpl.
  - assert (v !! i = None) as -> by (apply lookup_ge_None; lia).
    exists n, v, w. rewrite drop_ge by lia. rewrite take_ge by lia. simpl.
    rewrite !app_nil_r, Z.add_0_r, size_t_wrap_small by done. done.
  - destruct (v !! i) as [fd|] eqn:Hfd; [|apply lookup_ge_None in Hfd; lia].
    pose proof (lookup_lt_Some _ _ _ Hfd) as Hlt.
    assert (drop i v = fd :: drop (S i) v) as Hdrop.
    { rewrite <- (take_drop_middle _ _ _ Hfd) at 1.
      rewrite drop_app_length'; [done|]. rewrite length_take. lia. }
    rewrite Hdrop in Hall |- *. apply Forall_cons in Hall as [Hfdok Hall].
    rewrite Hpc, Hpi, Hpa.
    destruct (peer_connected w0 fd) eqn:Hc.
    + (* connected: one write, next index *)
      set (k := Z.of_nat (peer_accepts w0 fd (length buffer) `min` length buffer)).
      destruct (IH fuel (S i) (size_t_wrap (n + k)) v
                   (set_sent w (sent w ++ [(fd, k)])))
        as (n' & v' & w' & Hrun & Hv & Hn' & Hcl & Hbl);
        [done|done|done|lia|lia|lia|apply size_t_wrap_range|exact Hall|].
      exists n', v', w'. split; [exact Hrun|].
      rewrite filter_cons_True by exact Hc.
      split; [|split; [|split]].
      * rewrite Hv. rewrite (take_S_r _ _ _ Hfd), <- app_assoc. done.
      * rewrite Hn', size_t_wrap_add_l. f_equal. simpl. fold k. lia.
      * rewrite Hcl. rewrite filter_cons_False; [done|].
        intros [Hd _]. congruence.
      * exact Hbl.
    + (* not connected: the handle is dead, by the hypothesis *)
      destruct Hfdok as [Hcon|Hdead]; [unfold connected_handle in Hcon; congruence|].
      destruct Hdead as [_ Ha]. rewrite Ha. simpl.
      destruct (evict_at_lookup v i fd Hfd) as (l2' & He & Hp).
      pose proof (evict_at_length v i fd Hfd) as Hlen.
      assert (drop i (evict_at i v) = l2') as Hd2.
      { rewrite He, drop_app_length'; [done|]. rewrite length_take. lia. }
      assert (take i (evict_at i v) = take i v) as Ht2.
      { rewrite He, take_app_length'; [done|]. rewrite length_take. lia. }
      destruct (IH fuel i n (evict_at i v) (os_close w fd))
        as (n' & v' & w' & Hrun & Hv & Hn' & Hcl & Hbl);
        [done|done|done|lia|lia|lia|exact Hn| |].
      { rewrite Hd2, Hp. exact Hall. }
      exists n', v', w'. split; [exact Hrun|].
      rewrite filter_cons_False by (unfold connected_handle; congruence).
      rewrite filter_cons_True by (split; [exact Hc|exact Ha]).
      rewrite Hd2, Ht2 in *.
      split; [|split; [|split]].
      * rewrite Hv. by rewrite Hp.
      * rewrite Hn'. f_equal. f_equal.
        apply total_accepted_perm. by rewrite Hp.
      * rewrite Hcl. simpl. rewrite Hp, <- app_assoc. done.
      * exact Hbl.
Qed.

(** Whatever the loop returns, a handle of the vector is still in it or
    was dead. *)
Lemma write_loop_keeps (buffer : list Z) (w0 : World) (fuel : nat) :
  forall (i : nat) (n : Z) (v : list Z) (w : World) n' v' w',
    peer_connected w = peer_connected w0 ->
    peer_input w = peer_input w0 ->
    EthernetServer.write_loop fuel buffer i n v w = Some (n', v', w') ->
    forall h, h ∈ v -> h ∈ v' \/ dead w0 h.
Proof.
  induction fuel as [|fuel IH]; intros i n v w n' v' w' Hpc Hpi Hrun h Hh;
    [done|].
  simpl in Hrun. destruct (v !! i) as [fd|] eqn:Hfd.
  - rewrite Hpc, Hpi in Hrun.
    destruct (peer_connected w0 fd) eqn:Hc.
    + eapply IH; [| |exact Hrun|exact Hh]; done.
    + destruct (peer_input w0 fd =? 0)%Z eqn:Ha.
      * apply Z.eqb_eq in Ha.
        rewrite <- (evict_at_perm v i fd Hfd) in Hh.
        apply elem_of_cons in Hh as [->|Hh]; [right; by split|].
        eapply IH; [| |exact Hrun|exact Hh]; done.
      * eapply IH; [| |exact Hrun|exact Hh]; done.
  - left. by simplify_eq.
Qed.

(** ** The scans of [_accept] *)

Lemma is_live_live (w : World) (fd : Z) : is_live w fd = true <-> live w fd.
Proof.
  unfold is_live, live. simpl.
  destruct (peer_connected w fd), (Z.eqb_spec (peer_input w fd) 0); simpl;
    intuition congruence.
Qed.

Lemma is_live_dead (w : World) (fd : Z) : is_live w fd = false <-> dead w fd.
Proof.
  unfold is_live, dead. simpl.
  destruct (peer_connected w fd), (Z.eqb_spec (peer_input w fd) 0); simpl;
    intuition congruence.
Qed.

Lemma is_dead_dead (w : World) (fd : Z) : is_dead w fd = true <-> dead w fd.
Proof.
  unfold is_dead, dead. simpl.
  destruct (peer_connected w fd), (Z.eqb_spec (peer_input w fd) 0); simpl;
    intuition congruence.
Qed.

Lemma is_dead_live (w : World) (fd : Z) : is_dead w fd = false <-> live w fd.
Proof.
  unfold is_dead, live. simpl.
  destruct (peer_connected w fd), (Z.eqb_spec (peer_input w fd) 0); simpl;
    intuition congruence.
Qed.

Lemma live_not_dead (w : World) (fd : Z) : live w fd -> dead w fd -> False.
Proof. unfold live, dead. intuition congruence. Qed.

Lemma first_dead_Some (w : World) (rest : list Z) :
  forall i j, first_dead w rest i = Some j ->
    exists k d, j = i + k /\ rest !! k = Some d /\ dead w d
                /\ Forall (live w) (take k rest).
Proof.
  induction rest as [|fd rest IH]; intros i j Hj; [done|].
  simpl in Hj. destruct (is_live w fd) eqn:Hl.
  - destruct (IH _ _ Hj) as (k & d & -> & Hk & Hd & Hall).
    exists (S k), d. split; [lia|]. split; [done|]. split; [done|].
    simpl. constructor; [by apply is_live_live|done].
  - exists 0, fd. simplify_eq. split; [lia|]. split; [done|].
    split; [by apply is_live_dead|]. simpl. constructor.
Qed.

Lemma first_dead_None (w : World) (rest : list Z) (i : nat) :
  first_dead w rest i = None <-> Forall (live w) rest.
Proof.
  revert i. induction rest as [|fd rest IH]; intros i; simpl.
  - split; [constructor|done].
  - destruct (is_live w fd) eqn:Hl.
    + rewrite IH. split.
      * intros H. constructor; [by apply is_live_live|done].
      * intros H. by apply Forall_cons in H as [_ H].
    + split; [done|]. intros H. apply Forall_cons in H as [H _].
      apply is_live_dead in Hl. destruct (live_not_dead _ _ H Hl).
Qed.

Lemma erase_dead_Some (w : World) (l l' : list Z) :
  erase_dead w l = Some l' ->
  exists l1 d l2, l = l1 ++ d :: l2 /\ Forall (live w) l1 /\ dead w d
                  /\ l' = l1 ++ l2.
Proof.
  revert l'. induction l as [|fd l IH]; intros l' Hl; [done|].
  simpl in Hl. destruct (is_dead w fd) eqn:Hd.
  - exists [], fd, l. simplify_eq. split; [done|]. split; [constructor|].
    split; [by apply is_dead_dead|done].
  - destruct (erase_dead w l) as [rest'|] eqn:Hr; [|done].
    destruct (IH _ eq_refl) as (l1 & d & l2 & -> & Hall & Hdd & ->).
    exists (fd :: l1), d, l2. simplify_eq. split; [done|].
    split; [constructor; [by apply is_dead_live|done]|]. done.
Qed.

Lemma erase_dead_None (w : World) (l : list Z) :
  erase_dead w l = None <-> Forall (live w) l.
Proof.
  induction l as [|fd l IH]; simpl.
  - split; [constructor|done].
  - destruct (is_dead w fd) eqn:Hd.
    + split; [done|]. intros H. apply Forall_cons in H as [H _].
      apply is_dead_dead in Hd. destruct (live_not_dead _ _ H Hd).
    + destruct (erase_dead w l) as [rest'|] eqn:Hr.
      * split; [done|]. intros H. apply Forall_cons in H as [_ H].
        apply IH in H. done.
      * split; [|done]. intros _.
        constructor; [by apply is_dead_live|by apply IH].
Qed.

(** The four ways the search for a free slot can go. *)
Lemma reclaim_cases (s : EthernetServer.t) (w : World) :
  (tracked s <> EthernetServer.max_clients s
   /\ EthernetServer.reclaim s w = Some s)
  \/ (tracked s = EthernetServer.max_clients s
      /\ exists i d,
          EthernetServer.clients s !! i = Some d /\ dead w d
          /\ Forall (live w) (take i (EthernetServer.clients s))
          /\ EthernetServer.reclaim s w
             = Some (EthernetServer.set_clients s
                       (evict_at i (EthernetServer.clients s))))
  \/ (tracked s = EthernetServer.max_clients s
      /\ Forall (live w) (EthernetServer.clients s)
      /\ exists l1 d l2,
          EthernetServer.new_clients s = l1 ++ d :: l2
          /\ Forall (live w) l1 /\ dead w d
          /\ EthernetServer.reclaim s w
             = Some (EthernetServer.set_new_clients s (l1 ++ l2)))
  \/ (tracked s = EthernetServer.max_clients s
      /\ Forall (live w) (EthernetServer.clients s)
      /\ Forall (live w) (EthernetServer.new_clients s)
      /\ EthernetServer.reclaim s w = None).
Proof.
  unfold EthernetServer.reclaim, tracked.
  destruct (Z.eqb_spec
              (Z.of_nat (length (EthernetServer.new_clients s)
                         + length (EthernetServer.clients s)))
              (EthernetServer.max_clients s)) as [Heq|Hne]; [|by left].
  right.
  destruct (first_dead w (EthernetServer.clients s) 0) as [j|] eqn:Hfd.
  - left. split; [done|].
    destruct (first_dead_Some _ _ _ _ Hfd) as (k & d & -> & Hk & Hd & Hall).
    by exists k, d.
  - right. apply first_dead_None in Hfd.
    destruct (erase_dead w (EthernetServer.new_clients s)) as [l|] eqn:Hl.
    + left. split; [done|]. split; [done|].
      destruct (erase_dead_Some _ _ _ Hl) as (l1 & d & l2 & Hs & Hall & Hd & ->).
      by exists l1, d, l2.
    + right. apply erase_dead_None in Hl. done.
Qed.


(** ** Membership of handles across the operations *)

Lemma bind_first_collections (l : list addrinfo) :
  forall s w r s1 w1,
    EthernetServer.bind_first l s w = (r, s1, w1) ->
    EthernetServer.clients s1 = EthernetServer.clients s
    /\ EthernetServer.new_clients s1 = EthernetServer.new_clients s.
Proof.
  induction l as [|p l IH]; intros s w r s1 w1 Hb; simpl in Hb.
  - by simplify_eq.
  - destruct (ai_socket p =? -1)%Z; [by apply IH in Hb|].
    destruct (negb (ai_setsockopt p)); [by simplify_eq|].
    destruct (negb (ai_bind p)); [by apply IH in Hb|by simplify_eq].
Qed.

Lemma begin_collections (s : EthernetServer.t) (w : World) :
  forall r s1 w1,
    EthernetServer.begin s w = (r, s1, w1) ->
    EthernetServer.clients s1 = EthernetServer.clients s
    /\ EthernetServer.new_clients s1 = EthernetServer.new_clients s.
Proof.
  intros r s1 w1. unfold EthernetServer.begin, EthernetServer.begin_at.
  destruct (getaddrinfo w 0 (EthernetServer.port s)) as [servinfo|];
    [|by intros; simplify_eq].
  destruct (EthernetServer.bind_first servinfo s w) as [[b s2] w2] eqn:Hb.
  apply bind_first_collections in Hb.
  destruct b as [[|]|]; [destruct (listen_ok w2)|..]; by intros; simplify_eq.
Qed.

(** After [_accept], a pending handle is active, or the scan has just
    dropped it from [clients] as dead, or it was pending and not active
    before. *)
Lemma accept_pending (s : EthernetServer.t) (w : World) :
  forall report s' w',
    EthernetServer._accept s w = (report, s', w') ->
    forall h, h ∈ EthernetServer.new_clients s' ->
              h ∈ EthernetServer.clients s'
              \/ (h ∈ EthernetServer.clients s /\ dead w h)
              \/ (h ∈ EthernetServer.new_clients s
                  /\ h ∉ EthernetServer.clients s).
Proof.
  intros report s' w'. unfold EthernetServer._accept.
  assert (forall h, h ∈ EthernetServer.new_clients s ->
                    h ∈ EthernetServer.clients s
                    \/ (h ∈ EthernetServer.new_clients s
                        /\ h ∉ EthernetServer.clients s)) as Hdec.
  { intros h Hh. destruct (decide (h ∈ EthernetServer.clients s)); auto. }
  assert (forall s1, EthernetServer.reclaim s w = Some s1 ->
            forall h, h ∈ EthernetServer.new_clients s1 ->
                      h ∈ EthernetServer.clients s1
                      \/ (h ∈ EthernetServer.clients s /\ dead w h)
                      \/ (h ∈ EthernetServer.new_clients s
                          /\ h ∉ EthernetServer.clients s)) as Hrec.
  { intros s1 Hs1 h.
    destruct (reclaim_cases s w)
      as [[_ Hr]|[(_ & i & d & Hi & Hd & _ & Hr)
                 |[(_ & _ & l1 & d & l2 & Hnew & _ & _ & Hr)|(_ & _ & _ & Hr)]]];
      rewrite Hr in Hs1; simplify_eq; simpl; intros Hh.
    - destruct (Hdec _ Hh); auto.
    - destruct (Hdec _ Hh) as [Hin|Hout]; [|auto].
      pose proof Hin as Hin'.
      rewrite <- (evict_at_perm _ _ _ Hi) in Hin.
      apply elem_of_cons in Hin as [->|Hin]; [right; left; by split|by left].
    - assert (h ∈ EthernetServer.new_clients s) as Hh'.
      { rewrite Hnew.
        apply elem_of_app in Hh as [Hh|Hh]; apply elem_of_app;
          [by left|right; by apply elem_of_cons; right]. }
      destruct (Hdec _ Hh'); auto. }
  destruct (EthernetServer.reclaim s w) as [s1|].
  - specialize (Hrec s1 eq_refl).
    destruct (os_accept w) as [[new_fd errno] w1].
    destruct (new_fd =? -1)%Z.
    + destruct (negb (errno =? EAGAIN)%Z && negb (errno =? EWOULDBLOCK)%Z);
        intros; simplify_eq; by apply Hrec.
    + intros Heq h Hh. simplify_eq. simpl in Hh |- *.
      apply elem_of_app in Hh as [Hh|Hh].
      * destruct (Hrec _ Hh) as [Hin|Hd]; [left|by right].
        apply elem_of_app. by left.
      * left. apply elem_of_app. by right.
  - intros Heq h Hh. simplify_eq. destruct (Hdec _ Hh); auto.
Qed.

(** After [write], a pending handle is active, or the loop has just
    closed and dropped it as dead, or it was pending and not active
    before. *)
Lemma write_pending (fuel : nat) (s : EthernetServer.t) (w : World)
      (buffer : list Z) :
  forall n s' w',
    EthernetServer.write fuel s w buffer = Some (n, s', w') ->
    forall h, h ∈ EthernetServer.new_clients s' ->
              h ∈ EthernetServer.clients s'
              \/ (h ∈ EthernetServer.clients s /\ dead w h)
              \/ (h ∈ EthernetServer.new_clients s
                  /\ h ∉ EthernetServer.clients s).
Proof.
  intros n s' w'. unfold EthernetServer.write.
  destruct (EthernetServer.write_loop fuel buffer 0 0 (EthernetServer.clients s) w)
    as [[[n1 v1] w1]|] eqn:Hrun; [|done].
  intros Heq h Hh. simplify_eq. simpl in Hh |- *.
  destruct (decide (h ∈ EthernetServer.clients s)) as [Hin|Hout]; [|auto].
  destruct (write_loop_keeps buffer w fuel _ _ _ _ _ _ _ eq_refl eq_refl Hrun h Hin);
    [by left|right; by left].
Qed.

(** One call or event: a pending handle is active afterwards, or this
    call has dropped it from [clients] as dead, or it was pending and not
    active before the call. *)
Lemma step_pending (fuel : nat) (o : op) (s s' : EthernetServer.t)
      (w w' : World) :
  step fuel o (s, w) = Some (s', w') ->
  forall h, h ∈ EthernetServer.new_clients s' ->
            h ∈ EthernetServer.clients s'
            \/ (h ∈ EthernetServer.clients s /\ dead w h /\ may_evict o)
            \/ (h ∈ EthernetServer.new_clients s
                /\ h ∉ EthernetServer.clients s).
Proof.
  assert (forall h, h ∈ EthernetServer.new_clients s ->
                    h ∈ EthernetServer.clients s
                    \/ (h ∈ EthernetServer.new_clients s
                        /\ h ∉ EthernetServer.clients s)) as Hdec.
  { intros h Hh. destruct (decide (h ∈ EthernetServer.clients s)); auto. }
  intros Hstep h Hh. destruct o; simpl in Hstep.
  - destruct (EthernetServer.begin s w) as [[r s1] w1] eqn:Hb.
    apply begin_collections in Hb as [Hc Hn]. simplify_eq.
    rewrite Hc. rewrite Hn in Hh. destruct (Hdec _ Hh); auto.
  - unfold EthernetServer.hasClient in Hstep.
    destruct (EthernetServer._accept s w) as [[r s1] w1] eqn:Ha.
    simplify_eq.
    destruct (accept_pending _ _ _ _ _ Ha h Hh) as [?|[[? ?]|?]]; auto.
    right. left. do 2 (split; [done|]). by left.
  - simplify_eq. revert Hh. unfold EthernetServer.available.
    destruct (EthernetServer.new_clients s) as [|sock rest] eqn:Hn;
      simpl; intros Hh.
    + rewrite Hn in Hh. by apply elem_of_nil in Hh.
    + assert (h ∈ EthernetServer.new_clients s) as Hh'
          by (rewrite Hn; apply elem_of_cons; by right).
      destruct (decide (h ∈ EthernetServer.clients s)); [by left|].
      right. right. split; [|done]. apply elem_of_cons. by right.
  - destruct (EthernetServer.write fuel s w buffer) as [[[n s1] w1]|] eqn:Hw;
      [|done].
    simplify_eq.
    destruct (write_pending _ _ _ _ _ _ _ Hw h Hh) as [?|[[? ?]|?]]; auto.
    right. left. do 2 (split; [done|]). right. left. by eexists.
  - destruct (EthernetServer.write_byte fuel s w b) as [[[n s1] w1]|] eqn:Hw;
      [|done].
    simplify_eq.
    destruct (write_pending _ _ _ _ _ _ _ Hw h Hh) as [?|[[? ?]|?]]; auto.
    right. left. do 2 (split; [done|]). right. right. left. by eexists.
  - destruct str as [mem|]; simpl in Hstep.
    + destruct (EthernetServer.write fuel s w (take (strlen mem) mem))
        as [[[n s1] w1]|] eqn:Hw; [|done].
      simplify_eq.
      destruct (write_pending _ _ _ _ _ _ _ Hw h Hh) as [?|[[? ?]|?]]; auto.
      right. left. do 2 (split; [done|]). right. right. right. by eexists.
    + simplify_eq. destruct (Hdec _ Hh); auto.
  - simplify_eq. destruct (Hdec _ Hh); auto.
  - simplify_eq. destruct (Hdec _ Hh); auto.
Qed.

Lemma run_app (fuel : nat) (ops1 ops2 : list op) :
  forall st,
    run fuel (ops1 ++ ops2) st
    = match run fuel ops1 st with
      | Some st1 => run fuel ops2 st1
      | None => None
      end.
Proof.
  induction ops1 as [|o ops1 IH]; intros st; [done|].
  cbn [run app]. destruct (step fuel o st) as [st1|]; [apply IH|done].
Qed.

(** Over a sequence of calls from a state where every pending handle is
    active: a pending handle is active, or was active and dead before an
    earlier call that can evict. *)
Lemma run_pending (fuel : nat) (s0 : EthernetServer.t) (w0 : World)
      (ops : list op) :
  pending_subset_active s0 ->
  forall s w,
    run fuel ops (s0, w0) = Some (s, w) ->
    forall h, h ∈ EthernetServer.new_clients s ->
              h ∈ EthernetServer.clients s
              \/ exists ops1 o ops2 s1 w1,
                  ops = ops1 ++ o :: ops2
                  /\ run fuel ops1 (s0, w0) = Some (s1, w1)
                  /\ h ∈ EthernetServer.clients s1 /\ dead w1 h
                  /\ may_evict o.
Proof.
  intros Hsub. induction ops as [|o ops IH] using rev_ind; intros s w Hrun h Hh.
  - simpl in Hrun. simplify_eq. left. by apply Hsub.
  - rewrite run_app in Hrun.
    destruct (run fuel ops (s0, w0)) as [[s1 w1]|] eqn:Hprev; [|done].
    cbn [run] in Hrun.
    destruct (step fuel o (s1, w1)) as [[s2 w2]|] eqn:Hstep; [|done].
    simplify_eq.
    destruct (step_pending _ _ _ _ _ _ Hstep h Hh)
      as [Hin|[(Hin & Hd & Ho)|(Hin & Hout)]].
    + by left.
    + right. exists ops, o, [], s1, w1. done.
    + destruct (IH s1 w1 eq_refl h Hin)
        as [?|(ops1 & o' & ops2 & s3 & w3 & -> & Hr & Hc & Hd & Ho)]; [done|].
      right. exists ops1, o', (ops2 ++ [o]), s3, w3.
      split; [by rewrite <- app_assoc|done].
Qed.

(** ** The claims *)

(** C1 (fails on the code): the sum of the sizes of [clients] and
    [new_clients] does not stay at or under [max_clients].  A successful
    accept pushes the new descriptor on both, so away from the guard
    [new_clients.size() + clients.size() == max_clients] one accept raises
    the sum by two; with [max_clients = 1] the first [hasClient] on the
    empty server with one inbound connection leaves 2 tracked handles, and
    the next leaves 4. *)
Theorem C1_accept_exceeds_capacity :
  (forall s w new_fd errno rest,
      tracked s <> EthernetServer.max_clients s ->
      backlog w = (new_fd, errno) :: rest -> new_fd <> (-1)%Z ->
      tracked ((EthernetServer._accept s w).1.2) = (tracked s + 2)%Z)
  /\ (let s := EthernetServer.make 5003 1 (-1) in
      let w := set_backlog quiet_world [(5, 0); (6, 0)]%Z in
      tracked s = 0%Z
      /\ exists s1 w1 s2 w2,
          EthernetServer.hasClient s w = (true, s1, w1)
          /\ EthernetServer.clients s1 = [5%Z]
          /\ EthernetServer.new_clients s1 = [5%Z]
          /\ (EthernetServer.max_clients s1 < tracked s1)%Z
          /\ EthernetServer.hasClient s1 w1 = (true, s2, w2)
          /\ tracked s2 = 4%Z
          /\ EthernetServer.max_clients s2 = 1%Z).
Proof.
  split.
  - intros s w new_fd errno rest Hne Hb Hfd.
    unfold EthernetServer._accept.
    destruct (reclaim_cases s w) as [[_ ->]|[[? _]|[[? _]|[? _]]]]; [|done..].
    unfold os_accept. rewrite Hb.
    destruct (Z.eqb_spec new_fd (-1)) as [|_]; [done|].
    unfold tracked. simpl. rewrite !length_app. simpl. lia.
  - simpl. split; [done|]. by eexists _, _, _, _.
Qed.

Lemma C1_accept_exceeds_capacity_witness :
  tracked
    ((EthernetServer._accept (EthernetServer.make 5003 3 (-1))
        (set_backlog quiet_world [(5, 0)]%Z)).1.2) = 2%Z.
Proof.
  apply (proj1 C1_accept_exceeds_capacity
           (EthernetServer.make 5003 3 (-1))
           (set_backlog quiet_world [(5, 0)]%Z) 5%Z 0%Z []);
    [vm_compute; congruence|reflexivity|lia].
Defined.

(** C2 (fails on the code): with a half-closed handle (not connected, input
    still unread) in [clients], [write(buffer, size)] does not return.  The
    loop neither advances [i] nor removes the handle when it meets it, so
    every amount of fuel runs out. *)
Theorem C2_broadcast_half_closed_never_returns
        (s : EthernetServer.t) (w : World) (buffer : list Z) (h : Z)
        (fuel : nat) :
  h ∈ EthernetServer.clients s -> half_closed w h ->
  EthernetServer.write fuel s w buffer = None.
Proof.
  intros Hin Hh. unfold EthernetServer.write.
  by rewrite (write_loop_stuck buffer h fuel 0 0%Z _ w Hh Hin).
Qed.

Lemma C2_broadcast_half_closed_never_returns_witness :
  EthernetServer.write 1000
    (EthernetServer.mk 5003 4 3 [5; 6]%Z [])
    (set_peer (set_peer quiet_world 5 true 0) 6 false 1) [88%Z] = None.
Proof.
  apply (C2_broadcast_half_closed_never_returns _ _ _ 6%Z).
  - apply list_elem_of_In. simpl. auto.
  - split; [reflexivity|]. simpl. lia.
Defined.

(** C3 (fails on the code): a handle that leaves [clients] in the scan of
    [_accept] is not closed.  [_accept] never closes a descriptor at all;
    with [max_clients = 2], descriptor 5 accepted and then dead, the next
    [hasClient] with descriptor 6 inbound drops 5 from [clients] and the
    trace of closed descriptors stays empty. *)
Theorem C3_reclamation_scan_leaks_descriptor :
  (forall s w, closed ((EthernetServer._accept s w).2) = closed w)
  /\ (let s := EthernetServer.make 5003 2 (-1) in
      let w := set_peer (set_backlog quiet_world [(5, 0)]%Z) 5 true 0 in
      exists s1 w1,
        run 1 [OpHasClient; OpPeerEvent 5 false 0; OpInbound 6 0; OpHasClient]
            (s, w) = Some (s1, w1)
        /\ EthernetServer.clients s1 = [6%Z]
        /\ (5%Z ∉ EthernetServer.clients s1)
        /\ closed w1 = []).
Proof.
  split.
  - intros s w. unfold EthernetServer._accept.
    destruct (EthernetServer.reclaim s w) as [s1|]; [|done].
    unfold os_accept. destruct (backlog w) as [|[new_fd errno] rest].
    + simpl. done.
    + destruct (new_fd =? -1)%Z; [|done].
      by destruct (negb (errno =? EAGAIN)%Z && negb (errno =? EWOULDBLOCK)%Z).
  - eexists _, _. split; [reflexivity|]. simpl. split; [done|].
    split; [|done]. intros H. apply list_elem_of_In in H. simpl in H.
    destruct H as [H|[]]. discriminate H.
Qed.



(** C5: at capacity with every tracked handle live (connected, or with
    input pending), [_accept] accepts nothing and leaves the server and the
    world as they were; it only reports that the maximum is reached.
    [hasClient], which runs it, leaves them unchanged as well. *)
Theorem C5_full_and_all_live_accepts_nothing
        (s : EthernetServer.t) (w : World) :
  tracked s = EthernetServer.max_clients s ->
  Forall (live w) (EthernetServer.clients s) ->
  Forall (live w) (EthernetServer.new_clients s) ->
  EthernetServer._accept s w = (EthernetServer.MaxClientsReached, s, w)
  /\ (EthernetServer.hasClient s w).1.2 = s
  /\ (EthernetServer.hasClient s w).2 = w.
Proof.
  intros Hfull Hcl Hnew.
  assert (EthernetServer.reclaim s w = None) as Hr.
  { unfold EthernetServer.reclaim. fold (tracked s).
    rewrite (proj2 (Z.eqb_eq _ _) Hfull).
    rewrite (proj2 (first_dead_None w _ 0) Hcl).
    by rewrite (proj2 (erase_dead_None w _) Hnew). }
  unfold EthernetServer.hasClient, EthernetServer._accept. by rewrite Hr.
Qed.

Lemma C5_full_and_all_live_accepts_nothing_witness :
  EthernetServer._accept
    (EthernetServer.mk 5003 3 3 [5; 6]%Z [6%Z])
    (set_backlog (set_peer (set_peer quiet_world 5 true 0) 6 false 4)
       [(7, 0)]%Z)
  = (EthernetServer.MaxClientsReached,
     EthernetServer.mk 5003 3 3 [5; 6]%Z [6%Z],
     set_backlog (set_peer (set_peer quiet_world 5 true 0) 6 false 4)
       [(7, 0)]%Z).
Proof.
  apply C5_full_and_all_live_accepts_nothing.
  - reflexivity.
  - apply Forall_cons_2; [left; reflexivity|].
    apply Forall_cons_2; [right; simpl; lia|]. apply Forall_nil_2.
  - apply Forall_cons_2; [right; simpl; lia|]. apply Forall_nil_2.
Defined.

(** C6: at capacity with a dead handle among the tracked ones and a
    connection waiting, one [_accept] gives up exactly one dead handle and
    accepts exactly one connection.  The handle given up is the first dead
    one of [clients], removed by overwriting its slot with the last one;
    only when [clients] has none, it is the first dead one of
    [new_clients].  The new descriptor is appended to both. *)
Theorem C6_full_with_dead_reclaims_one_accepts_one
        (s : EthernetServer.t) (w : World) (new_fd errno : Z)
        (rest : list (Z * Z)) :
  tracked s = EthernetServer.max_clients s ->
  (exists h, (h ∈ EthernetServer.clients s \/ h ∈ EthernetServer.new_clients s)
             /\ dead w h) ->
  backlog w = (new_fd, errno) :: rest -> new_fd <> (-1)%Z ->
  exists s',
    EthernetServer._accept s w
    = (EthernetServer.NewConnection new_fd, s', set_backlog w rest)
    /\ EthernetServer.port s' = EthernetServer.port s
    /\ EthernetServer.max_clients s' = EthernetServer.max_clients s
    /\ EthernetServer.sockfd s' = EthernetServer.sockfd s
    /\ ((exists i d,
            EthernetServer.clients s !! i = Some d /\ dead w d
            /\ Forall (live w) (take i (EthernetServer.clients s))
            /\ d :: evict_at i (EthernetServer.clients s)
               ≡ₚ EthernetServer.clients s
            /\ EthernetServer.clients s'
               = evict_at i (EthernetServer.clients s) ++ [new_fd]
            /\ EthernetServer.new_clients s'
               = EthernetServer.new_clients s ++ [new_fd])
        \/ (Forall (live w) (EthernetServer.clients s)
            /\ exists l1 d l2,
                EthernetServer.new_clients s = l1 ++ d :: l2
                /\ Forall (live w) l1 /\ dead w d
                /\ EthernetServer.new_clients s' = (l1 ++ l2) ++ [new_fd]
                /\ EthernetServer.clients s'
                   = EthernetServer.clients s ++ [new_fd])).
Proof.
  intros Hfull (h & Hin & Hdead) Hb Hfd.
  unfold EthernetServer._accept, os_accept. rewrite Hb.
  destruct (Z.eqb_spec new_fd (-1)) as [|_]; [done|].
  destruct (reclaim_cases s w)
    as [[Hne _]|[(_ & i & d & Hi & Hd & Hall & ->)
                |[(_ & Hcl & l1 & d & l2 & Hnew & Hall & Hd & ->)
                 |(_ & Hcl & Hnew & _)]]].
  - done.
  - eexists. split; [reflexivity|]. simpl. do 3 (split; [done|]).
    left. exists i, d. do 3 (split; [done|]).
    split; [by apply evict_at_perm|done].
  - eexists. split; [reflexivity|]. simpl. do 3 (split; [done|]).
    right. split; [done|]. by exists l1, d, l2.
  - exfalso. destruct Hin as [Hin|Hin].
    + rewrite Forall_forall in Hcl. exact (live_not_dead _ _ (Hcl _ Hin) Hdead).
    + rewrite Forall_forall in Hnew. exact (live_not_dead _ _ (Hnew _ Hin) Hdead).
Qed.

Lemma C6_full_with_dead_reclaims_one_accepts_one_witness :
  exists s',
    EthernetServer._accept
      (EthernetServer.mk 5003 3 3 [5; 6]%Z [6%Z])
      (set_backlog (set_peer quiet_world 6 true 0) [(7, 0)]%Z)
    = (EthernetServer.NewConnection 7, s',
       set_backlog (set_backlog (set_peer quiet_world 6 true 0) [(7, 0)]%Z) [])
    /\ EthernetServer.clients s' = [6; 7]%Z
    /\ EthernetServer.new_clients s' = [6; 7]%Z.
Proof.
  destruct (C6_full_with_dead_reclaims_one_accepts_one
              (EthernetServer.mk 5003 3 3 [5; 6]%Z [6%Z])
              (set_backlog (set_peer quiet_world 6 true 0) [(7, 0)]%Z)
              7%Z 0%Z [])
    as (s' & Hrun & _).
  - reflexivity.
  - exists 5%Z. split; [left; apply list_elem_of_In; simpl; auto|].
    split; reflexivity.
  - reflexivity.
  - lia.
  - exists s'. split; [exact Hrun|].
    vm_compute in Hrun. injection Hrun as <-. by vm_compute.
Defined.

(** One run of [_accept] takes at most one result from the backlog and
    adds at most one handle to each collection. *)
Lemma accept_at_most_one (s : EthernetServer.t) (w : World) :
  forall report s' w',
    EthernetServer._accept s w = (report, s', w') ->
    (backlog w' = backlog w \/ exists r, backlog w = r :: backlog w')
    /\ length (EthernetServer.clients s') <= S (length (EthernetServer.clients s))
    /\ length (EthernetServer.new_clients s')
       <= S (length (EthernetServer.new_clients s)).
Proof.
  intros report s' w'. unfold EthernetServer._accept.
  assert (forall s1, EthernetServer.reclaim s w = Some s1 ->
            length (EthernetServer.clients s1) <= length (EthernetServer.clients s)
            /\ length (EthernetServer.new_clients s1)
               <= length (EthernetServer.new_clients s)) as Hrec.
  { intros s1 Hs1.
    destruct (reclaim_cases s w)
      as [[_ Hr]|[(_ & i & d & Hi & _ & _ & Hr)
                 |[(_ & _ & l1 & d & l2 & Hnew & _ & _ & Hr)|(_ & _ & _ & Hr)]]];
      rewrite Hr in Hs1; simplify_eq; simpl.
    - lia.
    - pose proof (evict_at_length _ _ _ Hi). lia.
    - rewrite Hnew, !length_app. simpl. lia. }
  destruct (EthernetServer.reclaim s w) as [s1|];
    [|intros; simplify_eq; split; [auto|lia]].
  destruct (Hrec s1 eq_refl) as [Hc Hn].
  unfold os_accept. destruct (backlog w) as [|[new_fd errno] rest] eqn:Hb.
  - simpl. intros; simplify_eq. rewrite Hb. split; [auto|lia].
  - destruct (new_fd =? -1)%Z.
    + destruct (negb (errno =? EAGAIN)%Z && negb (errno =? EWOULDBLOCK)%Z);
        intros; simplify_eq; simpl; (split; [eauto|lia]).
    + intros; simplify_eq; simpl. rewrite !length_app. simpl.
      split; [eauto|lia].
Qed.

(** C7: [hasClient] runs [_accept] once and returns true exactly when
    [new_clients] is not empty afterwards, whoever put the entries there.
    The one attempt is made: with room in the pool the first waiting
    connection is taken, appended to both collections, and the others are
    left waiting; whenever the search for a slot lets the attempt through,
    exactly the first result of [accept] is consumed, and when it does not,
    nothing is.  So no call takes more than one connection.  With nothing
    tracked and nothing inbound it returns false and changes neither the
    server nor the world. *)
Theorem C7_hasClient_one_attempt (s : EthernetServer.t) (w : World) :
  exists report s' w',
    EthernetServer._accept s w = (report, s', w')
    /\ (exists b, EthernetServer.hasClient s w = (b, s', w')
                  /\ (b = true <-> EthernetServer.new_clients s' <> []))
    /\ (tracked s <> EthernetServer.max_clients s ->
        forall new_fd errno rest,
          backlog w = (new_fd, errno) :: rest -> new_fd <> (-1)%Z ->
          EthernetServer.hasClient s w
          = (true,
             EthernetServer.mk (EthernetServer.port s)
               (EthernetServer.max_clients s) (EthernetServer.sockfd s)
               (EthernetServer.clients s ++ [new_fd])
               (EthernetServer.new_clients s ++ [new_fd]),
             set_backlog w rest))
    /\ (forall s1,
          EthernetServer.reclaim s w = Some s1 ->
          (backlog w = [] -> s' = s1 /\ w' = w)
          /\ (forall new_fd errno rest,
                backlog w = (new_fd, errno) :: rest ->
                w' = set_backlog w rest
                /\ (new_fd <> (-1)%Z ->
                    EthernetServer.clients s'
                    = EthernetServer.clients s1 ++ [new_fd]
                    /\ EthernetServer.new_clients s'
                       = EthernetServer.new_clients s1 ++ [new_fd]
                    /\ report = EthernetServer.NewConnection new_fd)
                /\ (new_fd = (-1)%Z -> s' = s1)))
    /\ (EthernetServer.reclaim s w = None -> s' = s /\ w' = w)
    /\ (backlog w' = backlog w \/ exists r, backlog w = r :: backlog w')
    /\ length (EthernetServer.clients s') <= S (length (EthernetServer.clients s))
    /\ length (EthernetServer.new_clients s')
       <= S (length (EthernetServer.new_clients s))
    /\ (EthernetServer.clients s = [] -> EthernetServer.new_clients s = [] ->
        backlog w = [] ->
        EthernetServer.hasClient s w = (false, s, w)).
Proof.
  destruct (EthernetServer._accept s w) as [[report s'] w'] eqn:Hacc.
  exists report, s', w'. split; [done|].
  split.
  { unfold EthernetServer.hasClient. rewrite Hacc.
    eexists. split; [reflexivity|].
    destruct (EthernetServer.new_clients s'); split; done. }
  split.
  { intros Hroom new_fd errno rest Hb Hfd.
    unfold EthernetServer.hasClient, EthernetServer._accept.
    destruct (reclaim_cases s w) as [[_ ->]|[[? _]|[[? _]|[? _]]]]; [|done..].
    unfold os_accept. rewrite Hb.
    destruct (Z.eqb_spec new_fd (-1)) as [|_]; [done|]. simpl.
    by destruct (EthernetServer.new_clients s). }
  split.
  { intros s1 Hs1. revert Hacc. unfold EthernetServer._accept, os_accept.
    rewrite Hs1. split.
    - intros Hb. rewrite Hb in Hacc. simpl in Hacc. by simplify_eq.
    - intros new_fd errno rest Hb. rewrite Hb in Hacc.
      destruct (Z.eqb_spec new_fd (-1)) as [Heq|Hne].
      + destruct (negb (errno =? EAGAIN)%Z && negb (errno =? EWOULDBLOCK)%Z);
          simplify_eq; done.
      + simplify_eq. simpl. done. }
  split.
  { intros Hnone. revert Hacc. unfold EthernetServer._accept. rewrite Hnone.
    intros; by simplify_eq. }
  destruct (accept_at_most_one s w _ _ _ Hacc) as (Hb & Hc & Hn).
  do 3 (split; [done|]).
  intros Hcl Hnew Hbl. unfold EthernetServer.hasClient.
  revert Hacc. unfold EthernetServer._accept.
  destruct (reclaim_cases s w)
    as [[_ ->]|[(_ & i & d & Hi & _)
               |[(_ & _ & l1 & d & l2 & Hl & _)|(_ & _ & _ & ->)]]].
  - unfold os_accept. rewrite Hbl. simpl. intros; simplify_eq. by rewrite Hnew.
  - rewrite Hcl in Hi. done.
  - rewrite Hnew in Hl. by destruct l1.
  - intros; simplify_eq. by rewrite Hnew.
Qed.

Lemma C7_hasClient_one_attempt_witness :
  EthernetServer.hasClient (EthernetServer.mk 5003 4 3 [5%Z] [])
    (set_backlog (set_peer quiet_world 5 true 0) [(6, 0); (7, 0)]%Z)
  = (true, EthernetServer.mk 5003 4 3 [5; 6]%Z [6%Z],
     set_backlog
       (set_backlog (set_peer quiet_world 5 true 0) [(6, 0); (7, 0)]%Z)
       [(7, 0)]%Z)
  /\ EthernetServer.hasClient (EthernetServer.make 5003 1 (-1)) quiet_world
     = (false, EthernetServer.make 5003 1 (-1), quiet_world).
Proof.
  split.
  - destruct (C7_hasClient_one_attempt
                (EthernetServer.mk 5003 4 3 [5%Z] [])
                (set_backlog (set_peer quiet_world 5 true 0)
                             [(6, 0); (7, 0)]%Z))
      as (report & s' & w' & _ & _ & Htake & _).
    apply (Htake ltac:(vm_compute; congruence) 6%Z 0%Z [(7, 0)]%Z);
      [reflexivity|lia].
  - destruct (C7_hasClient_one_attempt (EthernetServer.make 5003 1 (-1))
                quiet_world)
      as (report & s' & w' & _ & _ & _ & _ & _ & _ & _ & _ & Hquiet).
    apply Hquiet; reflexivity.
Defined.



(** C9 as stated fails: descriptor 5 is accepted, its peer disconnects
    with nothing unread, and a broadcast closes and drops it from [clients]
    while it is still in [new_clients]. *)
Lemma C9_pending_subset_active_counterexample :
  exists s w,
    run 2 [OpHasClient; OpPeerEvent 5 false 0; OpWrite [88%Z]]
        (EthernetServer.make 5003 2 (-1),
         set_peer (set_backlog quiet_world [(5, 0)]%Z) 5 true 0)
    = Some (s, w)
    /\ EthernetServer.new_clients s = [5%Z]
    /\ EthernetServer.clients s = []
    /\ ~ pending_subset_active s.
Proof.
  eexists _, _. split; [reflexivity|]. simpl. split; [done|]. split; [done|].
  intros H. specialize (H 5%Z). simpl in H.
  assert (5%Z ∈ [5%Z]) as Hin by (apply list_elem_of_In; simpl; auto).
  apply H in Hin. by apply elem_of_nil in Hin.
Qed.

(** C9 (amended): in every state a newly constructed server reaches,
    every handle of [new_clients] is in [clients], or was in [clients] and
    dead before an earlier call of [hasClient] or [write] of the sequence:
    the scan of [_accept] and the loop of [write] drop a dead handle from
    [clients] and leave it in [new_clients].  A handle enters both
    collections together at accept, and [available] takes it out of
    [new_clients] without touching [clients]. *)
Theorem C9_pending_active_or_evicted_dead :
  (forall fuel ops port max_clients sockfd0 w0 s w,
      run fuel ops (EthernetServer.make port max_clients sockfd0, w0)
      = Some (s, w) ->
      forall h, h ∈ EthernetServer.new_clients s ->
                h ∈ EthernetServer.clients s
                \/ exists ops1 o ops2 s1 w1,
                    ops = ops1 ++ o :: ops2
                    /\ run fuel ops1
                          (EthernetServer.make port max_clients sockfd0, w0)
                       = Some (s1, w1)
                    /\ h ∈ EthernetServer.clients s1 /\ dead w1 h
                    /\ may_evict o)
  /\ (forall s w new_fd s' w',
         EthernetServer._accept s w
         = (EthernetServer.NewConnection new_fd, s', w') ->
         new_fd ∈ EthernetServer.new_clients s'
         /\ new_fd ∈ EthernetServer.clients s')
  /\ (forall s,
         EthernetServer.clients ((EthernetServer.available s).2)
         = EthernetServer.clients s
         /\ EthernetServer.new_clients ((EthernetServer.available s).2)
            = drop 1 (EthernetServer.new_clients s)).
Proof.
  split; [|split].
  - intros fuel ops port max_clients sockfd0 w0 s w Hrun.
    assert (pending_subset_active
              (EthernetServer.make port max_clients sockfd0)) as Hsub.
    { intros h Hh. simpl in Hh. by apply elem_of_nil in Hh. }
    exact (run_pending fuel _ w0 ops Hsub s w Hrun).
  - intros s w new_fd s' w'. unfold EthernetServer._accept.
    destruct (EthernetServer.reclaim s w) as [s1|]; [|done].
    destruct (os_accept w) as [[fd errno] w1].
    destruct (fd =? -1)%Z.
    + by destruct (negb (errno =? EAGAIN)%Z && negb (errno =? EWOULDBLOCK)%Z).
    + intros; simplify_eq; simpl.
      split; apply elem_of_app; right; apply list_elem_of_In; simpl; auto.
  - intros s. unfold EthernetServer.available.
    destruct (EthernetServer.new_clients s) as [|sock rest] eqn:Hn; simpl;
      (split; [reflexivity|]); [by rewrite Hn|reflexivity].
Qed.

Lemma C9_pending_active_or_evicted_dead_witness :
  5%Z ∈ EthernetServer.clients (EthernetServer.mk 5003 2 (-1) [6%Z] [5; 6]%Z)
  \/ exists ops1 o ops2 s1 w1,
      [OpHasClient; OpPeerEvent 5 false 0; OpWrite [88%Z]; OpInbound 6 0;
       OpHasClient]
      = ops1 ++ o :: ops2
      /\ run 2 ops1
            (EthernetServer.make 5003 2 (-1),
             set_peer (set_backlog quiet_world [(5, 0)]%Z) 5 true 0)
         = Some (s1, w1)
      /\ 5%Z ∈ EthernetServer.clients s1 /\ dead w1 5 /\ may_evict o.
Proof.
  apply (proj1 C9_pending_active_or_evicted_dead 2
           [OpHasClient; OpPeerEvent 5 false 0; OpWrite [88%Z]; OpInbound 6 0;
            OpHasClient]
           5003%Z 2%Z (-1)%Z
           (set_peer (set_backlog quiet_world [(5, 0)]%Z) 5 true 0)
           (EthernetServer.mk 5003 2 (-1) [6%Z] [5; 6]%Z)
           (set_backlog
              (set_closed
                 (set_sent
                    (set_peer
                       (set_backlog
                          (set_peer (set_backlog quiet_world [(5, 0)]%Z) 5 true 0)
                          [])
                       5 false 0)
                    [])
                 [5%Z])
              [])).
  - reflexivity.
  - apply list_elem_of_In. simpl. auto.
Defined.

(** C10: the string overload of [write] called with the NULL pointer
    returns 0 and leaves the server and the world, and with them every
    trace of writes and closes, as they were; it returns with any fuel,
    none included, since the loop is not entered. *)
Theorem C10_write_null_string (fuel : nat) (s : EthernetServer.t) (w : World) :
  EthernetServer.write_str fuel s w None = Some (0%Z, s, w).
Proof. reflexivity. Qed.

(** ** Further properties of the broadcast *)

(** What a run of the loop that reaches its exit has done: the slots
    before [i] are as they were; from [i] on the connected handles are
    kept, each written once, in the order they end up in; the dead ones are
    closed; nothing else of the world moves. *)
Lemma write_loop_run (buffer : list Z) (w0 : World) (fuel : nat) :
  forall (i : nat) (n : Z) (v : list Z) (w : World) n' v' w',
    peer_connected w = peer_connected w0 ->
    peer_input w = peer_input w0 ->
    peer_accepts w = peer_accepts w0 ->
    (0 <= n < 2 ^ 64)%Z ->
    EthernetServer.write_loop fuel buffer i n v w = Some (n', v', w') ->
    exists kept gone,
      v' = take i v ++ kept
      /\ kept ≡ₚ filter (connected_handle w0) (drop i v)
      /\ gone ≡ₚ filter (dead w0) (drop i v)
      /\ w' = set_sent (set_closed w (closed w ++ gone))
                       (sent w ++ sent_of w0 (length buffer) kept)
      /\ n' = size_t_wrap (n + total_accepted w0 (length buffer) kept).
Proof.
  induction fuel as [|fuel IH]; intros i n v w n' v' w' Hpc Hpi Hpa Hrange Hrun;
    [done|].
  simpl in Hrun. destruct (v !! i) as [fd|] eqn:Hfd.
  - pose proof (lookup_lt_Some _ _ _ Hfd) as Hlt.
    assert (drop i v = fd :: drop (S i) v) as Hdrop.
    { rewrite <- (take_drop_middle _ _ _ Hfd) at 1.
      rewrite drop_app_length'; [done|]. rewrite length_take. lia. }
    rewrite Hpc, Hpi, Hpa in Hrun. rewrite Hdrop.
    destruct (peer_connected w0 fd) eqn:Hc.
    + apply IH in Hrun as (kept & gone & Hv & Hk & Hg & Hw & Hn);
        [|done|done|done|apply size_t_wrap_range].
      exists (fd :: kept), gone.
      rewrite filter_cons_True by exact Hc.
      rewrite filter_cons_False by (intros [Hd _]; congruence).
      split; [by rewrite Hv, (take_S_r _ _ _ Hfd), <- app_assoc|].
      split; [by rewrite Hk|]. split; [done|].
      split.
      * rewrite Hw. destruct w. unfold set_sent, set_closed. simpl.
        by rewrite <- app_assoc.
      * rewrite Hn, size_t_wrap_add_l. f_equal. simpl. lia.
    + destruct (peer_input w0 fd =? 0)%Z eqn:Ha.
      * apply Z.eqb_eq in Ha.
        destruct (evict_at_lookup v i fd Hfd) as (l2' & He & Hp).
        assert (drop i (evict_at i v) = l2') as Hd2.
        { rewrite He, drop_app_length'; [done|]. rewrite length_take. lia. }
        assert (take i (evict_at i v) = take i v) as Ht2.
        { rewrite He, take_app_length'; [done|]. rewrite length_take. lia. }
        apply IH in Hrun as (kept & gone & Hv & Hk & Hg & Hw & Hn); [|done..].
        rewrite Hd2 in Hk, Hg. rewrite Ht2 in Hv.
        exists kept, (fd :: gone).
        rewrite filter_cons_False by (unfold connected_handle; congruence).
        rewrite filter_cons_True by (by split).
        split; [done|]. split; [by rewrite Hk, Hp|].
        split; [by rewrite Hg, Hp|]. split; [|done].
        rewrite Hw. destruct w. unfold set_sent, set_closed, os_close. simpl.
        by rewrite <- app_assoc.
      * apply IH in Hrun as (kept & gone & Hv & Hk & Hg & Hw & Hn); [|done..].
        rewrite Hdrop in Hk, Hg. by exists kept, gone.
  - simplify_eq. apply lookup_ge_None in Hfd.
    exists [], []. rewrite drop_ge by lia. rewrite take_ge by lia.
    simpl. rewrite !app_nil_r, Z.add_0_r. do 3 (split; [done|]).
    split; [by destruct w'|]. by rewrite size_t_wrap_small.
Qed.

Lemma filter_connected_all (w : World) (v : list Z) :
  Forall (connected_handle w) (filter (connected_handle w) v).
Proof.
  apply Forall_forall. intros h Hh. by apply list_elem_of_filter in Hh as [Hh _].
Qed.

Lemma half_closed_dec (w : World) (h : Z) :
  half_closed w h \/ (connected_handle w h \/ dead w h).
Proof.
  unfold half_closed, connected_handle, dead.
  destruct (peer_connected w h); [by right; left|].
  destruct (Z.eq_dec (peer_input w h) 0%Z); [by right; right|by left].
Qed.

(** Every round of the loop disposes of at most one handle, so fuel for
    fewer tests of the loop condition than [length v - i + 1] runs out. *)
Lemma write_loop_short (buffer : list Z) (fuel : nat) :
  forall (i : nat) (n : Z) (v : list Z) (w : World),
    fuel <= length v - i ->
    EthernetServer.write_loop fuel buffer i n v w = None.
Proof.
  induction fuel as [|fuel IH]; intros i n v w Hfuel; [done|].
  simpl. destruct (v !! i) as [fd|] eqn:Hfd;
    [|apply lookup_ge_None in Hfd; lia].
  destruct (peer_connected w fd).
  - apply IH. lia.
  - destruct (peer_input w fd =? 0)%Z.
    + apply IH. pose proof (evict_at_length v i fd Hfd). lia.
    + apply IH. lia.
Qed.

(** X1: [write(buffer, size)] returns exactly when no handle of [clients]
    is half-closed (not connected, input still unread); it then needs
    exactly one test of the loop condition per handle and one for the
    exit: it returns with fuel above [clients.size()] and with no less. *)
Theorem X1_write_returns_iff_no_half_closed
        (s : EthernetServer.t) (w : World) (buffer : list Z) :
  ((exists fuel r, EthernetServer.write fuel s w buffer = Some r)
   <-> Forall (fun fd => ~ half_closed w fd) (EthernetServer.clients s))
  /\ (Forall (fun fd => ~ half_closed w fd) (EthernetServer.clients s) ->
      forall fuel,
        (exists r, EthernetServer.write fuel s w buffer = Some r)
        <-> length (EthernetServer.clients s) < fuel).
Proof.
  assert (Forall (fun fd => ~ half_closed w fd) (EthernetServer.clients s) ->
          forall fuel, length (EthernetServer.clients s) < fuel ->
                       exists r, EthernetServer.write fuel s w buffer = Some r)
    as Henough.
  { intros Hall fuel Hfuel.
    destruct (write_loop_ok buffer w (length (EthernetServer.clients s))
                fuel 0 0%Z (EthernetServer.clients s) w)
      as (n & v' & w' & Hrun & _); [done|done|done|lia|lia|lia|lia| |].
    - rewrite drop_0. eapply Forall_impl; [exact Hall|].
      intros h Hh. simpl in Hh. by destruct (half_closed_dec w h).
    - unfold EthernetServer.write. rewrite Hrun. by eexists. }
  split; [split|].
  - intros (fuel & r & Hr). apply Forall_forall. intros h Hin Hh.
    unfold EthernetServer.write in Hr.
    by rewrite (write_loop_stuck buffer h fuel 0 0%Z _ w Hh Hin) in Hr.
  - intros Hall. exists (S (length (EthernetServer.clients s))).
    apply Henough; [done|lia].
  - intros Hall fuel. split; [|by apply Henough].
    intros [r Hr].
    destruct (decide (length (EthernetServer.clients s) < fuel)); [done|].
    unfold EthernetServer.write in Hr.
    rewrite (write_loop_short buffer fuel 0 0%Z _ w) in Hr; [done|lia].
Qed.

Lemma X1_write_returns_iff_no_half_closed_witness :
  (exists r,
      EthernetServer.write 4 (EthernetServer.mk 5003 4 3 [5; 6; 7]%Z [7%Z])
        (set_peer (set_peer quiet_world 6 true 0) 7 true 2) [72; 105]%Z
      = Some r)
  <-> length (EthernetServer.clients
                (EthernetServer.mk 5003 4 3 [5; 6; 7]%Z [7%Z])) < 4.
Proof.
  apply (proj2 (X1_write_returns_iff_no_half_closed
                  (EthernetServer.mk 5003 4 3 [5; 6; 7]%Z [7%Z])
                  (set_peer (set_peer quiet_world 6 true 0) 7 true 2)
                  [72; 105]%Z)).
  apply Forall_cons_2; [intros [_ H]; apply H; reflexivity|].
  apply Forall_cons_2; [intros [H _]; discriminate H|].
  apply Forall_cons_2; [intros [H _]; discriminate H|]. apply Forall_nil_2.
Defined.

(** X2: what a [write(buffer, size)] that returns has done.  [clients] is
    left with the connected handles, to each of which the buffer was
    written exactly once, in the order they are left in; the dead handles,
    and only they, were closed; the result is the sum of the byte counts
    of these writes modulo 2^64; [new_clients], the other fields and the
    rest of the world are untouched. *)
Theorem X2_write_effect
        (fuel : nat) (s s' : EthernetServer.t) (w w' : World)
        (buffer : list Z) (n : Z) :
  EthernetServer.write fuel s w buffer = Some (n, s', w') ->
  exists kept gone,
    s' = EthernetServer.set_clients s kept
    /\ kept ≡ₚ filter (connected_handle w) (EthernetServer.clients s)
    /\ gone ≡ₚ filter (dead w) (EthernetServer.clients s)
    /\ w' = set_sent (set_closed w (closed w ++ gone))
                     (sent w ++ sent_of w (length buffer) kept)
    /\ n = size_t_wrap (total_accepted w (length buffer) kept).
Proof.
  unfold EthernetServer.write.
  destruct (EthernetServer.write_loop fuel buffer 0 0 (EthernetServer.clients s) w)
    as [[[n1 v1] w1]|] eqn:Hrun; [|done].
  intros Heq. simplify_eq.
  apply (write_loop_run buffer w) in Hrun
    as (kept & gone & Hv & Hk & Hg & Hw & Hn); [|done|done|done|lia].
  rewrite drop_0 in Hk, Hg. rewrite take_0 in Hv. simpl in Hv, Hn.
  exists kept, gone. by rewrite Hv.
Qed.

Lemma X2_write_effect_witness :
  exists kept gone,
    EthernetServer.mk 5003 4 3 [7; 6]%Z [7%Z]
    = EthernetServer.set_clients
        (EthernetServer.mk 5003 4 3 [5; 6; 7]%Z [7%Z]) kept
    /\ gone ≡ₚ filter (dead (set_peer (set_peer quiet_world 6 true 0) 7 true 2))
                      [5; 6; 7]%Z
    /\ 4%Z = size_t_wrap
               (total_accepted
                  (set_peer (set_peer quiet_world 6 true 0) 7 true 2)
                  (length [72; 105]%Z) kept).
Proof.
  destruct (X2_write_effect 4
              (EthernetServer.mk 5003 4 3 [5; 6; 7]%Z [7%Z])
              (EthernetServer.mk 5003 4 3 [7; 6]%Z [7%Z])
              (set_peer (set_peer quiet_world 6 true 0) 7 true 2)
              (set_sent
                 (set_closed (set_peer (set_peer quiet_world 6 true 0) 7 true 2)
                             [5%Z])
                 [(7, 2); (6, 2)]%Z)
              [72; 105]%Z 4%Z)
    as (kept & gone & Hs & _ & Hg & _ & Hn).
  - reflexivity.
  - by exists kept, gone.
Defined.

(** With only connected handles from index [i] on, the loop writes to each
    of them in turn and leaves the vector as it is. *)
Lemma write_loop_all_connected (buffer : list Z) (w0 : World) (m : nat) :
  forall (fuel i : nat) (n : Z) (v : list Z) (w : World),
    peer_connected w = peer_connected w0 ->
    peer_accepts w = peer_accepts w0 ->
    length v - i = m -> m < fuel -> (0 <= n < 2 ^ 64)%Z ->
    Forall (connected_handle w0) (drop i v) ->
    EthernetServer.write_loop fuel buffer i n v w
    = Some (size_t_wrap (n + total_accepted w0 (length buffer) (drop i v)),
            v,
            set_sent w (sent w ++ sent_of w0 (length buffer) (drop i v))).
Proof.
  induction m as [|m IH]; intros fuel i n v w Hpc Hpa Hm Hfuel Hn Hall;
    (destruct fuel as [|fuel]; [lia|]); simpl.
  - assert (v !! i = None) as -> by (apply lookup_ge_None; lia).
    rewrite drop_ge by lia. simpl.
    rewrite app_nil_r, Z.add_0_r, size_t_wrap_small by done. by destruct w.
  - destruct (v !! i) as [fd|] eqn:Hfd; [|apply lookup_ge_None in Hfd; lia].
    pose proof (lookup_lt_Some _ _ _ Hfd) as Hlt.
    assert (drop i v = fd :: drop (S i) v) as Hdrop.
    { rewrite <- (take_drop_middle _ _ _ Hfd) at 1.
      rewrite drop_app_length'; [done|]. rewrite length_take. lia. }
    rewrite Hdrop in Hall |- *. apply Forall_cons in Hall as [Hc Hall].
    rewrite Hpc, Hpa. unfold connected_handle in Hc. rewrite Hc.
    rewrite (IH fuel (S i) _ v _);
      [|done|done|lia|lia|apply size_t_wrap_range|exact Hall].
    rewrite size_t_wrap_add_l. simpl. rewrite Z.add_assoc.
    destruct w. unfold set_sent. simpl. by rewrite <- app_assoc.
Qed.

(** X3: when every handle of [clients] is connected, [write(buffer, size)]
    returns, given fuel for one round per handle and the exit test; the
    server is exactly as before, order of [clients] included, nothing is
    closed, the buffer is written once to each handle in the order of
    [clients], and the result is the sum of the byte counts modulo 2^64.
    With no client at all it returns 0 and does nothing. *)
Theorem X3_write_all_connected
        (fuel : nat) (s : EthernetServer.t) (w : World) (buffer : list Z) :
  Forall (connected_handle w) (EthernetServer.clients s) ->
  length (EthernetServer.clients s) < fuel ->
  EthernetServer.write fuel s w buffer
  = Some (size_t_wrap
            (total_accepted w (length buffer) (EthernetServer.clients s)),
          s,
          set_sent w (sent w ++ sent_of w (length buffer)
                                        (EthernetServer.clients s))).
Proof.
  intros Hall Hfuel. unfold EthernetServer.write.
  rewrite (write_loop_all_connected buffer w (length (EthernetServer.clients s)));
    [|done|done|lia|lia|lia|by rewrite drop_0].
  rewrite drop_0. simpl. by destruct s.
Qed.

Lemma X3_write_all_connected_witness :
  EthernetServer.write 3 (EthernetServer.mk 5003 4 3 [5; 6]%Z [6%Z])
    (set_peer (set_peer quiet_world 5 true 0) 6 true 1) [72; 105]%Z
  = Some (4%Z, EthernetServer.mk 5003 4 3 [5; 6]%Z [6%Z],
          set_sent (set_peer (set_peer quiet_world 5 true 0) 6 true 1)
                   [(5, 2); (6, 2)]%Z).
Proof.
  apply (X3_write_all_connected 3
           (EthernetServer.mk 5003 4 3 [5; 6]%Z [6%Z])
           (set_peer (set_peer quiet_world 5 true 0) 6 true 1)
           [72; 105]%Z).
  - apply Forall_cons_2; [reflexivity|].
    apply Forall_cons_2; [reflexivity|]. apply Forall_nil_2.
  - simpl. lia.
Defined.

(** X4: a second broadcast right after one that returned finds nothing to
    evict: it returns, leaves the server exactly as the first one left it,
    and closes no descriptor. *)
Theorem X4_write_again_evicts_nothing
        (fuel fuel2 : nat) (s s' : EthernetServer.t) (w w' : World)
        (buffer buffer2 : list Z) (n : Z) :
  EthernetServer.write fuel s w buffer = Some (n, s', w') ->
  length (EthernetServer.clients s') < fuel2 ->
  exists n2 w2,
    EthernetServer.write fuel2 s' w' buffer2 = Some (n2, s', w2)
    /\ closed w2 = closed w'.
Proof.
  unfold EthernetServer.write at 1.
  destruct (EthernetServer.write_loop fuel buffer 0 0 (EthernetServer.clients s) w)
    as [[[n1 v1] w1]|] eqn:Hrun; [|done].
  intros Heq Hfuel. simplify_eq. simpl in Hfuel.
  apply (write_loop_run buffer w) in Hrun
    as (kept & gone & Hv & Hk & Hg & Hw & Hn); [|done|done|done|lia].
  rewrite drop_0 in Hk. rewrite take_0 in Hv. simpl in Hv. subst v1.
  assert (Forall (connected_handle w) kept) as Hall.
  { rewrite Hk. apply filter_connected_all. }
  unfold EthernetServer.write. simpl.
  assert (peer_connected w' = peer_connected w) as Hpc by (by rewrite Hw).
  assert (peer_accepts w' = peer_accepts w) as Hpa by (by rewrite Hw).
  assert (length kept - 0 = length kept) as Hm by lia.
  assert (0 <= 0 < 2 ^ 64)%Z as H0 by lia.
  rewrite <- (drop_0 kept) in Hall.
  rewrite (write_loop_all_connected buffer2 w (length kept) fuel2 0 0%Z kept
             w' Hpc Hpa Hm Hfuel H0 Hall).
  eexists _, _. split; [by destruct s|reflexivity].
Qed.

Lemma X4_write_again_evicts_nothing_witness :
  exists n2 w2,
    EthernetServer.write 3 (EthernetServer.mk 5003 4 3 [7; 6]%Z [7%Z])
      (set_sent
         (set_closed (set_peer (set_peer quiet_world 6 true 0) 7 true 2)
                     [5%Z])
         [(7, 2); (6, 2)]%Z)
      [33%Z]
    = Some (n2, EthernetServer.mk 5003 4 3 [7; 6]%Z [7%Z], w2)
    /\ closed w2 = [5%Z].
Proof.
  apply (X4_write_again_evicts_nothing 4 3
           (EthernetServer.mk 5003 4 3 [5; 6; 7]%Z [7%Z])
           (EthernetServer.mk 5003 4 3 [7; 6]%Z [7%Z])
           (set_peer (set_peer quiet_world 6 true 0) 7 true 2)
           (set_sent
              (set_closed (set_peer (set_peer quiet_world 6 true 0) 7 true 2)
                          [5%Z])
              [(7, 2); (6, 2)]%Z)
           [72; 105]%Z [33%Z] 4%Z).
  - reflexivity.
  - simpl. lia.
Defined.

(** ** Further properties of the accept cycle *)

(** The search for a free slot gives up no live handle. *)
Lemma reclaim_keeps_live (s s1 : EthernetServer.t) (w : World) (h : Z) :
  EthernetServer.reclaim s w = Some s1 -> live w h ->
  (h ∈ EthernetServer.clients s -> h ∈ EthernetServer.clients s1)
  /\ (h ∈ EthernetServer.new_clients s -> h ∈ EthernetServer.new_clients s1).
Proof.
  intros Hs1 Hlive.
  destruct (reclaim_cases s w)
    as [[_ Hr]|[(_ & i & d & Hi & Hd & _ & Hr)
               |[(_ & _ & l1 & d & l2 & Hnew & _ & Hd & Hr)|(_ & _ & _ & Hr)]]];
    rewrite Hr in Hs1; simplify_eq; simpl.
  - done.
  - split; [|done]. intros Hh.
    rewrite <- (evict_at_perm _ _ _ Hi) in Hh.
    apply elem_of_cons in Hh as [->|Hh]; [|done].
    destruct (live_not_dead _ _ Hlive Hd).
  - split; [done|]. rewrite Hnew. intros Hh.
    apply elem_of_app in Hh as [Hh|Hh]; [apply elem_of_app; by left|].
    apply elem_of_cons in Hh as [->|Hh]; [|apply elem_of_app; by right].
    destruct (live_not_dead _ _ Hlive Hd).
Qed.

(** X5: no live handle is ever evicted.  A handle that is connected or has
    unread input stays in [clients] and in [new_clients] across [_accept],
    whatever the scans remove, and stays in [clients] across every
    [write(buffer, size)] that returns. *)
Theorem X5_live_handles_are_kept (w : World) (h : Z) :
  live w h ->
  (forall s,
      (h ∈ EthernetServer.clients s ->
       h ∈ EthernetServer.clients ((EthernetServer._accept s w).1.2))
      /\ (h ∈ EthernetServer.new_clients s ->
          h ∈ EthernetServer.new_clients ((EthernetServer._accept s w).1.2)))
  /\ (forall fuel s buffer n s' w',
         EthernetServer.write fuel s w buffer = Some (n, s', w') ->
         h ∈ EthernetServer.clients s -> h ∈ EthernetServer.clients s').
Proof.
  intros Hlive. split.
  - intros s. unfold EthernetServer._accept.
    destruct (EthernetServer.reclaim s w) as [s1|] eqn:Hr; [|done].
    destruct (reclaim_keeps_live _ _ _ _ Hr Hlive) as [Hc Hn].
    destruct (os_accept w) as [[new_fd errno] w1].
    destruct (new_fd =? -1)%Z.
    + by destruct (negb (errno =? EAGAIN)%Z && negb (errno =? EWOULDBLOCK)%Z).
    + simpl. split; intros Hh; apply elem_of_app; left; auto.
  - intros fuel s buffer n s' w'. unfold EthernetServer.write.
    destruct (EthernetServer.write_loop fuel buffer 0 0 (EthernetServer.clients s) w)
      as [[[n1 v1] w1]|] eqn:Hrun; [|done].
    intros Heq Hh. simplify_eq. simpl.
    destruct (write_loop_keeps buffer w fuel _ _ _ _ _ _ _ eq_refl eq_refl Hrun h Hh)
      as [Hin|Hd]; [done|].
    destruct (live_not_dead _ _ Hlive Hd).
Qed.

Lemma X5_live_handles_are_kept_witness :
  6%Z ∈ EthernetServer.clients
          ((EthernetServer._accept
              (EthernetServer.mk 5003 3 3 [5; 6]%Z [6%Z])
              (set_backlog (set_peer quiet_world 6 true 0) [(7, 0)]%Z)).1.2).
Proof.
  apply (proj1 (X5_live_handles_are_kept
                  (set_backlog (set_peer quiet_world 6 true 0) [(7, 0)]%Z)
                  6%Z ltac:(left; reflexivity))
               (EthernetServer.mk 5003 3 3 [5; 6]%Z [6%Z])).
  apply list_elem_of_In. simpl. auto.
Defined.

(** X6: an [accept] that fails while the pool is not at the guard leaves
    the server object untouched.  With nothing waiting the world is
    untouched too and nothing is reported; an [errno] other than [EAGAIN]
    and [EWOULDBLOCK] is reported, the others are not. *)
Theorem X6_accept_failure_changes_nothing (s : EthernetServer.t) (w : World) :
  tracked s <> EthernetServer.max_clients s ->
  (backlog w = [] ->
   EthernetServer._accept s w = (EthernetServer.WouldBlock, s, w))
  /\ (forall errno rest,
         backlog w = ((-1)%Z, errno) :: rest ->
         EthernetServer._accept s w
         = (if decide (errno = EAGAIN \/ errno = EWOULDBLOCK)
            then EthernetServer.WouldBlock
            else EthernetServer.AcceptFailed errno,
            s, set_backlog w rest)).
Proof.
  intros Hne. unfold EthernetServer._accept.
  destruct (reclaim_cases s w) as [[_ ->]|[[? _]|[[? _]|[? _]]]]; [|done..].
  unfold os_accept. split.
  - by intros ->.
  - intros errno rest ->. simpl. unfold EAGAIN, EWOULDBLOCK.
    destruct (Z.eqb_spec errno 11); simpl.
    + destruct (decide _) as [|Hn]; [done|]. destruct Hn. by left.
    + destruct (decide _) as [[|]|]; done.
Qed.

Lemma X6_accept_failure_changes_nothing_witness :
  EthernetServer._accept (EthernetServer.mk 5003 4 3 [5%Z] [5%Z])
    (set_backlog quiet_world [(-1, 24)]%Z)
  = (EthernetServer.AcceptFailed 24, EthernetServer.mk 5003 4 3 [5%Z] [5%Z],
     set_backlog (set_backlog quiet_world [(-1, 24)]%Z) []).
Proof.
  apply (proj2 (X6_accept_failure_changes_nothing
                  (EthernetServer.mk 5003 4 3 [5%Z] [5%Z])
                  (set_backlog quiet_world [(-1, 24)]%Z)
                  ltac:(vm_compute; congruence)) 24%Z []).
  reflexivity.
Defined.

(** X7: the search for a free slot runs before [accept] is tried and is
    not undone when [accept] then fails.  At the guard with a dead handle
    in [clients] and nothing waiting, [_accept] reports nothing, accepts
    nothing and still drops the first dead handle: [clients] is one
    shorter, [new_clients] and the world are as before. *)
Theorem X7_reclaims_even_if_nothing_inbound (s : EthernetServer.t) (w : World) :
  tracked s = EthernetServer.max_clients s ->
  (exists h, h ∈ EthernetServer.clients s /\ dead w h) ->
  backlog w = [] ->
  exists i d,
    EthernetServer.clients s !! i = Some d /\ dead w d
    /\ Forall (live w) (take i (EthernetServer.clients s))
    /\ EthernetServer._accept s w
       = (EthernetServer.WouldBlock,
          EthernetServer.set_clients s (evict_at i (EthernetServer.clients s)),
          w)
    /\ S (length (evict_at i (EthernetServer.clients s)))
       = length (EthernetServer.clients s).
Proof.
  intros Hfull (h & Hin & Hdead) Hb.
  unfold EthernetServer._accept, os_accept. rewrite Hb.
  destruct (reclaim_cases s w)
    as [[Hne _]|[(_ & i & d & Hi & Hd & Hall & ->)
                |[(_ & Hcl & _)|(_ & Hcl & _)]]].
  - done.
  - exists i, d. simpl. do 3 (split; [done|]).
    split; [done|]. by apply (evict_at_length _ _ d).
  - rewrite Forall_forall in Hcl. destruct (live_not_dead _ _ (Hcl _ Hin) Hdead).
  - rewrite Forall_forall in Hcl. destruct (live_not_dead _ _ (Hcl _ Hin) Hdead).
Qed.

Lemma X7_reclaims_even_if_nothing_inbound_witness :
  exists i d,
    [5; 6]%Z !! i = Some d
    /\ EthernetServer._accept (EthernetServer.mk 5003 2 3 [5; 6]%Z [])
                              (set_peer quiet_world 6 true 0)
       = (EthernetServer.WouldBlock,
          EthernetServer.set_clients
            (EthernetServer.mk 5003 2 3 [5; 6]%Z []) (evict_at i [5; 6]%Z),
          set_peer quiet_world 6 true 0).
Proof.
  destruct (X7_reclaims_even_if_nothing_inbound
              (EthernetServer.mk 5003 2 3 [5; 6]%Z [])
              (set_peer quiet_world 6 true 0))
    as (i & d & Hi & _ & _ & Hacc & _).
  - reflexivity.
  - exists 5%Z. split; [apply list_elem_of_In; simpl; auto|].
    split; reflexivity.
  - reflexivity.
  - by exists i, d.
Defined.

(** X8: accept and claim compose to a hand-over.  On an empty
    [new_clients], when [_accept] takes a connection, [hasClient] returns
    true and the next [available] returns the handle of exactly that
    descriptor, leaves [new_clients] empty again and keeps the descriptor
    in [clients]. *)
Theorem X8_hasClient_then_available
        (s s1 : EthernetServer.t) (w w1 : World) (new_fd : Z) :
  EthernetServer.new_clients s = [] ->
  EthernetServer._accept s w = (EthernetServer.NewConnection new_fd, s1, w1) ->
  EthernetServer.hasClient s w = (true, s1, w1)
  /\ exists s2,
      EthernetServer.available s1 = (EthernetClient.Of new_fd, s2)
      /\ EthernetServer.new_clients s2 = []
      /\ EthernetServer.clients s2 = EthernetServer.clients s1
      /\ new_fd ∈ EthernetServer.clients s2
      /\ EthernetServer.available s2 = (EthernetClient.Default, s2).
Proof.
  intros Hempty Hacc.
  assert (EthernetServer.new_clients s1 = [new_fd]
          /\ new_fd ∈ EthernetServer.clients s1) as [Hnew Hin].
  { revert Hacc. unfold EthernetServer._accept.
    destruct (reclaim_cases s w)
      as [[_ ->]|[(_ & i & d & _ & _ & _ & ->)
                 |[(_ & _ & l1 & d & l2 & Hl & _)|(_ & _ & _ & ->)]]];
      [| |rewrite Hempty in Hl; by destruct l1|done];
      (destruct (os_accept w) as [[fd errno] w2];
       destruct (fd =? -1)%Z;
       [destruct (negb (errno =? EAGAIN)%Z && negb (errno =? EWOULDBLOCK)%Z);
        done|]);
      intros; simplify_eq; simpl; rewrite Hempty;
      (split; [done|]); apply elem_of_app; right;
      apply list_elem_of_In; simpl; auto. }
  split.
  - unfold EthernetServer.hasClient. rewrite Hacc. by rewrite Hnew.
  - unfold EthernetServer.available at 1. rewrite Hnew.
    eexists. split; [reflexivity|]. simpl. do 3 (split; [done|]).
    reflexivity.
Qed.

Lemma X8_hasClient_then_available_witness :
  EthernetServer.hasClient (EthernetServer.mk 5003 4 3 [5%Z] [])
                           (set_backlog quiet_world [(6, 0)]%Z)
  = (true, EthernetServer.mk 5003 4 3 [5; 6]%Z [6%Z],
     set_backlog (set_backlog quiet_world [(6, 0)]%Z) []).
Proof.
  apply (X8_hasClient_then_available
           (EthernetServer.mk 5003 4 3 [5%Z] [])
           (EthernetServer.mk 5003 4 3 [5; 6]%Z [6%Z])
           (set_backlog quiet_world [(6, 0)]%Z)
           (set_backlog (set_backlog quiet_world [(6, 0)]%Z) []) 6%Z);
    reflexivity.
Defined.

(** ** Properties of [begin] *)

Lemma set_closed_nil (w : World) : set_closed w (closed w ++ []) = w.
Proof. destruct w. unfold set_closed. simpl. by rewrite app_nil_r. Qed.

Lemma passed_over_cases (p : addrinfo) :
  passed_over p
  \/ bindable p
  \/ (ai_socket p <> (-1)%Z /\ ai_setsockopt p = false).
Proof.
  unfold passed_over, bindable.
  destruct (Z.eq_dec (ai_socket p) (-1)%Z); [by left; left|].
  destruct (ai_setsockopt p); [|by right; right].
  destruct (ai_bind p); [right; by left|left; by right].
Qed.

(** The loop over an entry it passes over: the socket result is stored,
    and closed again if it was created. *)
Lemma bind_first_passed_over (p : addrinfo) (l : list addrinfo)
      (s : EthernetServer.t) (w : World) :
  passed_over p ->
  EthernetServer.bind_first (p :: l) s w
  = EthernetServer.bind_first l
      (EthernetServer.set_sockfd s (ai_socket p))
      (set_closed w (closed w ++ map ai_socket (List.filter bind_failed [p]))).
Proof.
  intros Hp. simpl. unfold bind_failed.
  destruct (Z.eqb_spec (ai_socket p) (-1)%Z) as [Hs|Hs]; simpl.
  - by rewrite set_closed_nil.
  - destruct Hp as [Hp|[Hso Hb]]; [done|]. by rewrite Hso, Hb.
Qed.

Lemma last_default_irrelevant (l : list Z) (x d d' : Z) :
  List.last (x :: l) d = List.last (x :: l) d'.
Proof. revert x. induction l as [|y l IH]; intros x; [done|]. apply IH. Qed.

(** The three ways the loop of [begin] ends. *)
Lemma bind_first_cases (l : list addrinfo) :
  forall (s : EthernetServer.t) (w : World),
    (Forall passed_over l
     /\ EthernetServer.bind_first l s w
        = (None,
           EthernetServer.set_sockfd s
             (List.last (map ai_socket l) (EthernetServer.sockfd s)),
           set_closed w (closed w
                         ++ map ai_socket (List.filter bind_failed l))))
    \/ (exists l1 p l2,
           l = l1 ++ p :: l2 /\ Forall passed_over l1
           /\ (bindable p
               \/ (ai_socket p <> (-1)%Z /\ ai_setsockopt p = false))
           /\ EthernetServer.bind_first l s w
              = (Some (ai_setsockopt p),
                 EthernetServer.set_sockfd s (ai_socket p),
                 set_closed w (closed w
                               ++ map ai_socket (List.filter bind_failed l1)))).
Proof.
  induction l as [|p l IH]; intros s w.
  - left. split; [constructor|]. simpl. rewrite set_closed_nil. by destruct s.
  - destruct (passed_over_cases p) as [Hp|Hstop].
    + rewrite (bind_first_passed_over p l s w Hp).
      destruct (IH (EthernetServer.set_sockfd s (ai_socket p))
                   (set_closed w (closed w ++ map ai_socket
                                             (List.filter bind_failed [p]))))
        as [[Hall Hrun]|(l1 & q & l2 & Hl & Hall & Hq & Hrun)].
      * left. split; [by constructor|]. rewrite Hrun. f_equal; [f_equal|].
        -- unfold EthernetServer.set_sockfd. simpl. f_equal.
           destruct l as [|q l]; [done|]. apply last_default_irrelevant.
        -- destruct w. unfold set_closed. simpl.
           destruct (bind_failed p); simpl; by rewrite <- ?app_assoc, ?app_nil_r.
      * right. exists (p :: l1), q, l2. rewrite Hl.
        split; [done|]. split; [by constructor|]. split; [done|].
        rewrite <- Hl, Hrun. f_equal.
        destruct w. unfold set_closed. simpl.
        destruct (bind_failed p); simpl; by rewrite <- ?app_assoc, ?app_nil_r.
    + right. exists [], p, l. split; [done|]. split; [constructor|].
      split; [done|]. simpl. rewrite set_closed_nil.
      destruct Hstop as [(Hs & Hso & Hb)|(Hs & Hso)];
        (destruct (Z.eqb_spec (ai_socket p) (-1)%Z); [done|]);
        rewrite Hso; simpl; [by rewrite Hb|done].
Qed.

(** The loop stops on the first entry it does not pass over. *)
Lemma bind_first_stops (l1 l2 : list addrinfo) (p : addrinfo) :
  forall (s : EthernetServer.t) (w : World),
    Forall passed_over l1 ->
    bindable p \/ (ai_socket p <> (-1)%Z /\ ai_setsockopt p = false) ->
    EthernetServer.bind_first (l1 ++ p :: l2) s w
    = (Some (ai_setsockopt p),
       EthernetServer.set_sockfd s (ai_socket p),
       set_closed w (closed w ++ map ai_socket (List.filter bind_failed l1))).
Proof.
  induction l1 as [|q l1 IH]; intros s w Hall Hp.
  - simpl. rewrite set_closed_nil.
    destruct Hp as [(Hs & Hso & Hb)|(Hs & Hso)];
      (destruct (Z.eqb_spec (ai_socket p) (-1)%Z); [done|]);
      rewrite Hso; simpl; [by rewrite Hb|done].
  - apply Forall_cons in Hall as [Hq Hall].
    change ((q :: l1) ++ p :: l2) with (q :: (l1 ++ p :: l2)).
    rewrite (bind_first_passed_over q _ s w Hq), (IH _ _ Hall Hp).
    f_equal. destruct w. unfold set_closed. simpl.
    destruct (bind_failed q); simpl; by rewrite <- ?app_assoc, ?app_nil_r.
Qed.

Lemma passed_over_not_stop (p : addrinfo) :
  passed_over p ->
  bindable p \/ (ai_socket p <> (-1)%Z /\ ai_setsockopt p = false) -> False.
Proof.
  unfold passed_over, bindable.
  intros [Hs|[Hso Hb]] [(Hs' & Hso' & Hb')|(Hs' & Hso')]; congruence.
Qed.

(** [begin] moves nothing but [sockfd] and the trace of closed
    descriptors. *)
Lemma begin_at_frame (address : Z) (s : EthernetServer.t) (w : World) :
  exists fd cl,
    (EthernetServer.begin_at address s w).1.2 = EthernetServer.set_sockfd s fd
    /\ (EthernetServer.begin_at address s w).2 = set_closed w (closed w ++ cl)
    /\ Forall (fun c => c <> (-1)%Z) cl.
Proof.
  assert (forall l, Forall (fun c => c <> (-1)%Z)
                      (map ai_socket (List.filter bind_failed l))) as Hcl.
  { intros l. apply Forall_forall. intros c Hc.
    apply list_elem_of_In, in_map_iff in Hc as (p & <- & Hp).
    apply filter_In in Hp as [_ Hp]. unfold bind_failed in Hp.
    destruct (Z.eqb_spec (ai_socket p) (-1)%Z); [done|done]. }
  unfold EthernetServer.begin_at.
  destruct (getaddrinfo w address (EthernetServer.port s)) as [servinfo|].
  - destruct (bind_first_cases servinfo s w)
      as [[_ ->]|(l1 & p & l2 & _ & _ & Hp & ->)].
    + eexists _, _. simpl. split; [reflexivity|]. split; [reflexivity|]. apply Hcl.
    + destruct Hp as [(_ & -> & _)|(_ & ->)]; simpl.
      * destruct (listen_ok w); eexists _, _; simpl;
          (split; [reflexivity|]); (split; [reflexivity|]); apply Hcl.
      * eexists _, _. simpl. split; [reflexivity|]. split; [reflexivity|].
        apply Hcl.
  - exists (EthernetServer.sockfd s), []. simpl.
    split; [by destruct s|]. split; [by rewrite set_closed_nil|constructor].
Qed.

(** X9: [begin] binds to the first entry of [getaddrinfo] it can.  It
    reports that it is listening exactly when the list has an entry for
    which [socket], [setsockopt] and [bind] all succeed, every entry before
    it is passed over ([socket] failed, or [bind] failed), and [listen]
    succeeds; [sockfd] is then the socket of that entry. *)
Theorem X9_begin_binds_first_bindable
        (address : Z) (s : EthernetServer.t) (w : World) :
  (EthernetServer.begin_at address s w).1.1 = EthernetServer.Listening
  <-> exists servinfo l1 p l2,
      getaddrinfo w address (EthernetServer.port s) = Some servinfo
      /\ servinfo = l1 ++ p :: l2
      /\ Forall passed_over l1 /\ bindable p /\ listen_ok w = true
      /\ EthernetServer.sockfd ((EthernetServer.begin_at address s w).1.2)
         = ai_socket p.
Proof.
  unfold EthernetServer.begin_at. split.
  - destruct (getaddrinfo w address (EthernetServer.port s)) as [servinfo|];
      [|done].
    destruct (bind_first_cases servinfo s w)
      as [[_ ->]|(l1 & p & l2 & Hl & Hall & Hp & ->)]; [done|].
    destruct Hp as [Hb|(_ & Hso)]; [|by rewrite Hso].
    pose proof Hb as (_ & Hso & _). rewrite Hso. simpl.
    destruct (listen_ok w) eqn:Hli; [|done].
    intros _. by exists servinfo, l1, p, l2.
  - intros (servinfo & l1 & p & l2 & -> & -> & Hall & Hb & Hli & _).
    rewrite (bind_first_stops l1 l2 p s w Hall (or_introl Hb)).
    destruct Hb as (_ & -> & _). simpl. by rewrite Hli.
Qed.

(** X10: when [bind] succeeds for no entry, every socket [begin] created is
    closed again: with all entries passed over, [begin] reports that it
    failed to bind, the descriptors it closed are the results of the
    [socket] calls that succeeded, in order, and [sockfd] is left holding
    the result of the last [socket] call (its old value for an empty
    list), not a listening socket. *)
Theorem X10_begin_failed_to_bind_closes_all
        (address : Z) (s : EthernetServer.t) (w : World)
        (servinfo : list addrinfo) :
  getaddrinfo w address (EthernetServer.port s) = Some servinfo ->
  Forall passed_over servinfo ->
  EthernetServer.begin_at address s w
  = (EthernetServer.FailedToBind,
     EthernetServer.set_sockfd s
       (List.last (map ai_socket servinfo) (EthernetServer.sockfd s)),
     set_closed w
       (closed w
        ++ List.filter (fun fd => negb (fd =? -1)%Z) (map ai_socket servinfo))).
Proof.
  intros Hg Hall. unfold EthernetServer.begin_at. rewrite Hg.
  destruct (bind_first_cases servinfo s w)
    as [[_ ->]|(l1 & p & l2 & -> & _ & Hp & _)].
  - do 3 f_equal. clear Hg.
    induction Hall as [|p l Hp _ IH]; [done|].
    simpl. rewrite <- IH. unfold bind_failed.
    destruct (Z.eqb_spec (ai_socket p) (-1)%Z) as [|Hs]; simpl; [done|].
    destruct Hp as [Hp|[-> ->]]; [done|done].
  - apply Forall_app in Hall as [_ Hall]. apply Forall_cons in Hall as [Hpo _].
    destruct (passed_over_not_stop p Hpo Hp).
Qed.

Lemma X10_begin_failed_to_bind_closes_all_witness :
  EthernetServer.begin_at 0 (EthernetServer.make 5003 4 (-1))
    (mk_World (fun _ => false) (fun _ => 0%Z) (fun _ size => size)
       (fun _ _ => Some [mk_addrinfo (-1) true true; mk_addrinfo 3 true false])
       true [] [] [])
  = (EthernetServer.FailedToBind, EthernetServer.make 5003 4 3,
     mk_World (fun _ => false) (fun _ => 0%Z) (fun _ size => size)
       (fun _ _ => Some [mk_addrinfo (-1) true true; mk_addrinfo 3 true false])
       true [] [3%Z] []).
Proof.
  apply (X10_begin_failed_to_bind_closes_all 0 (EthernetServer.make 5003 4 (-1))
           (mk_World (fun _ => false) (fun _ => 0%Z) (fun _ size => size)
              (fun _ _ => Some [mk_addrinfo (-1) true true;
                                mk_addrinfo 3 true false])
              true [] [] [])
           [mk_addrinfo (-1) true true; mk_addrinfo 3 true false]).
  - reflexivity.
  - apply Forall_cons_2; [left; reflexivity|].
    apply Forall_cons_2; [right; split; reflexivity|]. apply Forall_nil_2.
Defined.

(** X11: [begin] touches neither the pool nor the backlog.  Whatever it
    reports, the server differs from the one before at most in [sockfd],
    the world at most by descriptors added to the trace of closes, and it
    never closes the failure value -1. *)
Theorem X11_begin_leaves_pool_alone
        (address : Z) (s : EthernetServer.t) (w : World) :
  exists fd cl,
    (EthernetServer.begin_at address s w).1.2 = EthernetServer.set_sockfd s fd
    /\ (EthernetServer.begin_at address s w).2 = set_closed w (closed w ++ cl)
    /\ Forall (fun c => c <> (-1)%Z) cl
    /\ EthernetServer.begin s w = EthernetServer.begin_at 0 s w.
Proof.
  destruct (begin_at_frame address s w) as (fd & cl & Hs & Hw & Hcl).
  by exists fd, cl.
Qed.

(** ** Invariants of sequences of calls *)

Lemma reclaim_frame (s s1 : EthernetServer.t) (w : World) :
  EthernetServer.reclaim s w = Some s1 ->
  EthernetServer.port s1 = EthernetServer.port s
  /\ EthernetServer.max_clients s1 = EthernetServer.max_clients s
  /\ EthernetServer.sockfd s1 = EthernetServer.sockfd s
  /\ (forall h, h ∈ EthernetServer.clients s1 -> h ∈ EthernetServer.clients s)
  /\ (forall h, h ∈ EthernetServer.new_clients s1 ->
                h ∈ EthernetServer.new_clients s).
Proof.
  intros Hs1.
  destruct (reclaim_cases s w)
    as [[_ Hr]|[(_ & i & d & Hi & _ & _ & Hr)
               |[(_ & _ & l1 & d & l2 & Hnew & _ & _ & Hr)|(_ & _ & _ & Hr)]]];
    rewrite Hr in Hs1; simplify_eq; simpl; do 3 (split; [done|]).
  - done.
  - split; [|done]. intros h Hh. rewrite <- (evict_at_perm _ _ _ Hi).
    apply elem_of_cons. by right.
  - split; [done|]. intros h Hh. rewrite Hnew.
    apply elem_of_app in Hh as [Hh|Hh]; apply elem_of_app;
      [by left|right; apply elem_of_cons; by right].
Qed.

Lemma accept_frame (s s' : EthernetServer.t) (w w' : World)
      (report : EthernetServer.accept_report) :
  EthernetServer._accept s w = (report, s', w') ->
  EthernetServer.port s' = EthernetServer.port s
  /\ EthernetServer.max_clients s' = EthernetServer.max_clients s
  /\ EthernetServer.sockfd s' = EthernetServer.sockfd s
  /\ (forall h, h ∈ EthernetServer.clients s' ->
                h ∈ EthernetServer.clients s
                \/ (h <> (-1)%Z /\ h ∈ map fst (backlog w)))
  /\ (forall h, h ∈ EthernetServer.new_clients s' ->
                h ∈ EthernetServer.new_clients s
                \/ (h <> (-1)%Z /\ h ∈ map fst (backlog w)))
  /\ (forall h, h ∈ map fst (backlog w') -> h ∈ map fst (backlog w)).
Proof.
  unfold EthernetServer._accept.
  destruct (EthernetServer.reclaim s w) as [s1|] eqn:Hr;
    [|intros; simplify_eq; auto 10].
  destruct (reclaim_frame _ _ _ Hr) as (Hp & Hm & Hfd & Hc & Hn).
  unfold os_accept. destruct (backlog w) as [|[new_fd errno] rest] eqn:Hb.
  - simpl. intros; simplify_eq. rewrite Hb. auto 10.
  - destruct (Z.eqb_spec new_fd (-1)%Z) as [|Hne].
    + destruct (negb (errno =? EAGAIN)%Z && negb (errno =? EWOULDBLOCK)%Z);
        intros; simplify_eq; simpl; (do 3 (split; [done|]));
        (split; [auto|]); (split; [auto|]);
        intros h Hh; apply elem_of_cons; by right.
    + intros; simplify_eq; simpl. do 3 (split; [done|]).
      split; [|split].
      * intros h Hh. apply elem_of_app in Hh as [Hh|Hh]; [auto|].
        apply list_elem_of_singleton in Hh as ->. right. split; [done|].
        apply elem_of_cons. by left.
      * intros h Hh. apply elem_of_app in Hh as [Hh|Hh]; [auto|].
        apply list_elem_of_singleton in Hh as ->. right. split; [done|].
        apply elem_of_cons. by left.
      * intros h Hh. apply elem_of_cons. by right.
Qed.

Lemma write_frame (fuel : nat) (s s' : EthernetServer.t) (w w' : World)
      (buffer : list Z) (n : Z) :
  EthernetServer.write fuel s w buffer = Some (n, s', w') ->
  EthernetServer.port s' = EthernetServer.port s
  /\ EthernetServer.max_clients s' = EthernetServer.max_clients s
  /\ EthernetServer.sockfd s' = EthernetServer.sockfd s
  /\ (forall h, h ∈ EthernetServer.clients s' -> h ∈ EthernetServer.clients s)
  /\ EthernetServer.new_clients s' = EthernetServer.new_clients s
  /\ backlog w' = backlog w.
Proof.
  unfold EthernetServer.write.
  destruct (EthernetServer.write_loop fuel buffer 0 0 (EthernetServer.clients s) w)
    as [[[n1 v1] w1]|] eqn:Hrun; [|done].
  intros Heq. simplify_eq. simpl.
  apply (write_loop_run buffer w) in Hrun
    as (kept & gone & Hv & Hk & _ & Hw & _); [|done|done|done|lia].
  rewrite drop_0 in Hk. rewrite take_0 in Hv. simpl in Hv. subst v1.
  do 3 (split; [done|]). split; [|split; [done|by rewrite Hw]].
  intros h Hh. rewrite Hk in Hh. by apply list_elem_of_filter in Hh as [_ Hh].
Qed.

Lemma available_frame (s : EthernetServer.t) :
  EthernetServer.port ((EthernetServer.available s).2) = EthernetServer.port s
  /\ EthernetServer.max_clients ((EthernetServer.available s).2)
     = EthernetServer.max_clients s
  /\ EthernetServer.sockfd ((EthernetServer.available s).2)
     = EthernetServer.sockfd s
  /\ EthernetServer.clients ((EthernetServer.available s).2)
     = EthernetServer.clients s
  /\ (forall h, h ∈ EthernetServer.new_clients ((EthernetServer.available s).2) ->
                h ∈ EthernetServer.new_clients s).
Proof.
  unfold EthernetServer.available.
  destruct (EthernetServer.new_clients s) as [|sock rest] eqn:Hn; simpl;
    (do 4 (split; [done|])); intros h Hh.
  - by rewrite Hn in Hh.
  - apply elem_of_cons. by right.
Qed.

(** What one call or event can do to the fields and to the membership of
    the two collections. *)
Lemma step_frame (fuel : nat) (o : op) (s s' : EthernetServer.t) (w w' : World) :
  step fuel o (s, w) = Some (s', w') ->
  EthernetServer.port s' = EthernetServer.port s
  /\ EthernetServer.max_clients s' = EthernetServer.max_clients s
  /\ (o <> OpBegin -> EthernetServer.sockfd s' = EthernetServer.sockfd s)
  /\ (forall h, h ∈ EthernetServer.clients s' ->
                h ∈ EthernetServer.clients s
                \/ (h <> (-1)%Z /\ h ∈ map fst (backlog w)))
  /\ (forall h, h ∈ EthernetServer.new_clients s' ->
                h ∈ EthernetServer.new_clients s
                \/ (h <> (-1)%Z /\ h ∈ map fst (backlog w)))
  /\ (forall h, h ∈ map fst (backlog w') ->
                h ∈ map fst (backlog w) \/ exists errno, o = OpInbound h errno).
Proof.
  intros Hstep. destruct o; simpl in Hstep.
  - unfold EthernetServer.begin in Hstep.
    destruct (begin_at_frame 0 s w) as (fd & cl & Hs & Hw & _).
    destruct (EthernetServer.begin_at 0 s w) as [[r s1] w1].
    simpl in Hs, Hw. simplify_eq. simpl. repeat split; try done; auto.
  - unfold EthernetServer.hasClient in Hstep.
    destruct (EthernetServer._accept s w) as [[r s1] w1] eqn:Ha.
    simplify_eq.
    destruct (accept_frame _ _ _ _ _ Ha) as (Hp & Hm & Hfd & Hc & Hn & Hb).
    repeat split; try done; auto.
  - simplify_eq.
    destruct (available_frame s) as (Hp & Hm & Hfd & Hc & Hn).
    rewrite Hc. repeat split; try done; auto.
  - destruct (EthernetServer.write fuel s w buffer) as [[[n s1] w1]|] eqn:Hw;
      [|done].
    simplify_eq.
    destruct (write_frame _ _ _ _ _ _ _ Hw) as (Hp & Hm & Hfd & Hc & Hn & Hb).
    rewrite Hn, Hb. repeat split; try done; auto.
  - destruct (EthernetServer.write_byte fuel s w b) as [[[n s1] w1]|] eqn:Hw;
      [|done].
    simplify_eq.
    destruct (write_frame _ _ _ _ _ _ _ Hw) as (Hp & Hm & Hfd & Hc & Hn & Hb).
    rewrite Hn, Hb. repeat split; try done; auto.
  - destruct str as [mem|]; simpl in Hstep.
    + destruct (EthernetServer.write fuel s w (take (strlen mem) mem))
        as [[[n s1] w1]|] eqn:Hw; [|done].
      simplify_eq.
      destruct (write_frame _ _ _ _ _ _ _ Hw) as (Hp & Hm & Hfd & Hc & Hn & Hb).
      rewrite Hn, Hb. repeat split; try done; auto.
    + simplify_eq. repeat split; try done; auto.
  - simplify_eq. simpl. repeat split; try done; auto.
  - simplify_eq. simpl. do 5 (split; [auto|]).
    intros h Hh. rewrite map_app in Hh.
    apply elem_of_app in Hh as [Hh|Hh]; [by left|].
    apply list_elem_of_singleton in Hh as ->. right. by eexists.
Qed.

(** Descriptors tracked or waiting stay inside any set that holds them at
    the start and holds the descriptors the events bring. *)
Lemma run_members (fuel : nat) (A : Z -> Prop) (ops : list op) :
  forall (s s' : EthernetServer.t) (w w' : World),
    (forall h, h ∈ inbound_fds ops -> A h) ->
    (forall h, h ∈ EthernetServer.clients s \/ h ∈ EthernetServer.new_clients s ->
               h <> (-1)%Z /\ A h) ->
    (forall h, h ∈ map fst (backlog w) -> A h) ->
    run fuel ops (s, w) = Some (s', w') ->
    forall h, h ∈ EthernetServer.clients s' \/ h ∈ EthernetServer.new_clients s' ->
              h <> (-1)%Z /\ A h.
Proof.
  induction ops as [|o ops IH]; intros s s' w w' Hin Htr Hbl Hrun.
  - simpl in Hrun. by simplify_eq.
  - cbn [run] in Hrun.
    destruct (step fuel o (s, w)) as [[s1 w1]|] eqn:Hstep; [|done].
    destruct (step_frame _ _ _ _ _ _ Hstep) as (_ & _ & _ & Hc & Hn & Hb).
    apply (IH s1 s' w1 w'); [| | |exact Hrun].
    + intros h Hh. apply Hin. destruct o; simpl; try done.
      apply elem_of_cons. by right.
    + intros h [Hh|Hh].
      * destruct (Hc _ Hh) as [Hold|[Hne Hold]]; [auto|]. split; [done|auto].
      * destruct (Hn _ Hh) as [Hold|[Hne Hold]]; [auto|]. split; [done|auto].
    + intros h Hh. destruct (Hb _ Hh) as [Hold|[errno ->]]; [auto|].
      apply Hin. simpl. apply elem_of_cons. by left.
Qed.

(** X12: the server only ever tracks descriptors that [accept] returned.
    After any sequence of calls and events from a newly constructed
    server, every descriptor in [clients] or [new_clients] is one that was
    waiting in the backlog at the start or was brought by an event, and it
    is never the failure value -1. *)
Theorem X12_tracked_descriptors_were_accepted
        (fuel : nat) (ops : list op) (port max_clients sockfd0 : Z)
        (w0 w : World) (s : EthernetServer.t) :
  run fuel ops (EthernetServer.make port max_clients sockfd0, w0) = Some (s, w) ->
  forall h, h ∈ EthernetServer.clients s \/ h ∈ EthernetServer.new_clients s ->
            h <> (-1)%Z
            /\ (h ∈ map fst (backlog w0) \/ h ∈ inbound_fds ops).
Proof.
  intros Hrun.
  apply (run_members fuel
           (fun h => h ∈ map fst (backlog w0) \/ h ∈ inbound_fds ops)
           ops (EthernetServer.make port max_clients sockfd0) s w0 w);
    [auto| |auto|exact Hrun].
  simpl. intros h [Hh|Hh]; by apply elem_of_nil in Hh.
Qed.

Lemma X12_tracked_descriptors_were_accepted_witness :
  6%Z <> (-1)%Z
  /\ (6%Z ∈ map fst (backlog (set_backlog quiet_world [(5, 0); (-1, 4)]%Z))
      \/ 6%Z ∈ inbound_fds [OpHasClient; OpHasClient; OpInbound 6 0;
                            OpHasClient; OpAvailable]).
Proof.
  apply (X12_tracked_descriptors_were_accepted 1
           [OpHasClient; OpHasClient; OpInbound 6 0; OpHasClient; OpAvailable]
           5003 8 (-1)
           (set_backlog quiet_world [(5, 0); (-1, 4)]%Z)
           (set_backlog (set_backlog quiet_world [(5, 0); (-1, 4)]%Z) [])
           (EthernetServer.mk 5003 8 (-1) [5; 6]%Z [6%Z])).
  - reflexivity.
  - left. apply list_elem_of_In. simpl. auto.
Defined.

(** X13: a server constructed with [max_clients = 0] never accepts.  The
    guard holds on the empty pool and both scans find nothing, so after
    any sequence of calls and events [clients] and [new_clients] are still
    empty and what was waiting in the backlog at the start is still
    waiting. *)
Theorem X13_zero_capacity_never_accepts
        (fuel : nat) (ops : list op) (port sockfd0 : Z)
        (w0 w : World) (s : EthernetServer.t) :
  run fuel ops (EthernetServer.make port 0 sockfd0, w0) = Some (s, w) ->
  EthernetServer.clients s = [] /\ EthernetServer.new_clients s = []
  /\ take (length (backlog w0)) (backlog w) = backlog w0.
Proof.
  assert (forall ops s1 w1,
             EthernetServer.clients s1 = [] ->
             EthernetServer.new_clients s1 = [] ->
             EthernetServer.max_clients s1 = 0%Z ->
             run fuel ops (s1, w1) = Some (s, w) ->
             EthernetServer.clients s = [] /\ EthernetServer.new_clients s = []
             /\ take (length (backlog w1)) (backlog w) = backlog w1) as Hinv.
  { clear ops. intros ops.
    induction ops as [|o ops IH]; intros s1 w1 Hc Hn Hm Hrun; cbn [run] in Hrun.
    - simplify_eq. by rewrite take_ge.
    - destruct (step fuel o (s1, w1)) as [[s2 w2]|] eqn:Hstep; [|done].
      destruct (step_frame _ _ _ _ _ _ Hstep) as (_ & Hm2 & _ & _ & _ & _).
      assert (EthernetServer.clients s2 = [] /\ EthernetServer.new_clients s2 = []
              /\ take (length (backlog w1)) (backlog w2) = backlog w1)
        as (Hc2 & Hn2 & Hb2).
      { destruct o; simpl in Hstep.
        - destruct (begin_at_frame 0 s1 w1) as (fd & cl & Hs & Hw & _).
          unfold EthernetServer.begin in Hstep.
          destruct (EthernetServer.begin_at 0 s1 w1) as [[r s3] w3].
          simpl in Hs, Hw. simplify_eq. simpl. by rewrite take_ge.
        - unfold EthernetServer.hasClient, EthernetServer._accept,
            EthernetServer.reclaim in Hstep.
          rewrite Hc, Hn, Hm in Hstep. simpl in Hstep. simplify_eq.
          by rewrite take_ge.
        - unfold EthernetServer.available in Hstep. rewrite Hn in Hstep.
          simpl in Hstep. simplify_eq. by rewrite take_ge.
        - destruct (EthernetServer.write fuel s1 w1 buffer)
            as [[[n s3] w3]|] eqn:Hw; [|done].
          simplify_eq.
          destruct (write_frame _ _ _ _ _ _ _ Hw) as (_ & _ & _ & Hsub & Hnn & Hbb).
          rewrite Hnn, Hbb. split; [|by rewrite take_ge].
          destruct (EthernetServer.clients s2) as [|h v]; [done|].
          specialize (Hsub h ltac:(apply elem_of_cons; by left)).
          rewrite Hc in Hsub. by apply elem_of_nil in Hsub.
        - destruct (EthernetServer.write_byte fuel s1 w1 b)
            as [[[n s3] w3]|] eqn:Hw; [|done].
          simplify_eq.
          destruct (write_frame _ _ _ _ _ _ _ Hw) as (_ & _ & _ & Hsub & Hnn & Hbb).
          rewrite Hnn, Hbb. split; [|by rewrite take_ge].
          destruct (EthernetServer.clients s2) as [|h v]; [done|].
          specialize (Hsub h ltac:(apply elem_of_cons; by left)).
          rewrite Hc in Hsub. by apply elem_of_nil in Hsub.
        - destruct str as [mem|]; simpl in Hstep;
            [|simplify_eq; by rewrite take_ge].
          destruct (EthernetServer.write fuel s1 w1 (take (strlen mem) mem))
            as [[[n s3] w3]|] eqn:Hw; [|done].
          simplify_eq.
          destruct (write_frame _ _ _ _ _ _ _ Hw) as (_ & _ & _ & Hsub & Hnn & Hbb).
          rewrite Hnn, Hbb. split; [|by rewrite take_ge].
          destruct (EthernetServer.clients s2) as [|h v]; [done|].
          specialize (Hsub h ltac:(apply elem_of_cons; by left)).
          rewrite Hc in Hsub. by apply elem_of_nil in Hsub.
        - simplify_eq. simpl. by rewrite take_ge.
        - simplify_eq. simpl. by rewrite take_app_length. }
      destruct (IH s2 w2 Hc2 Hn2 (eq_trans Hm2 Hm) Hrun) as (Hcs & Hns & Hbs).
      split; [done|]. split; [done|].
      assert (length (backlog w1) <= length (backlog w2)) as Hle.
      { pose proof (f_equal length Hb2) as Hlen.
        rewrite length_take in Hlen. lia. }
      transitivity (take (length (backlog w1))
                         (take (length (backlog w2)) (backlog w))).
      + rewrite take_take. f_equal. lia.
      + rewrite Hbs. exact Hb2. }
  intros Hrun.
  exact (Hinv ops (EthernetServer.make port 0 sockfd0) w0
              eq_refl eq_refl eq_refl Hrun).
Qed.

Lemma X13_zero_capacity_never_accepts_witness :
  EthernetServer.clients (EthernetServer.make 5003 0 (-1)) = []
  /\ EthernetServer.new_clients (EthernetServer.make 5003 0 (-1)) = []
  /\ take (length (backlog (set_backlog quiet_world [(5, 0)]%Z)))
          (backlog (set_backlog quiet_world [(5, 0); (6, 0)]%Z))
     = backlog (set_backlog quiet_world [(5, 0)]%Z).
Proof.
  apply (X13_zero_capacity_never_accepts 1
           [OpHasClient; OpInbound 6 0; OpHasClient; OpWrite [72%Z]; OpAvailable]
           5003 (-1)
           (set_backlog quiet_world [(5, 0)]%Z)
           (set_backlog quiet_world [(5, 0); (6, 0)]%Z)
           (EthernetServer.make 5003 0 (-1))).
  reflexivity.
Defined.

(** X14: no call changes the configuration.  Over any sequence of calls
    and events [port] and [max_clients] keep the values the constructor
    gave them, and [sockfd] changes only in [begin]. *)
Theorem X14_run_keeps_configuration
        (fuel : nat) (ops : list op) (s s' : EthernetServer.t) (w w' : World) :
  run fuel ops (s, w) = Some (s', w') ->
  EthernetServer.port s' = EthernetServer.port s
  /\ EthernetServer.max_clients s' = EthernetServer.max_clients s
  /\ (OpBegin ∉ ops -> EthernetServer.sockfd s' = EthernetServer.sockfd s).
Proof.
  revert s w. induction ops as [|o ops IH]; intros s w Hrun; cbn [run] in Hrun.
  - by simplify_eq.
  - destruct (step fuel o (s, w)) as [[s1 w1]|] eqn:Hstep; [|done].
    destruct (step_frame _ _ _ _ _ _ Hstep) as (Hp & Hm & Hfd & _).
    destruct (IH _ _ Hrun) as (Hp' & Hm' & Hfd').
    split; [congruence|]. split; [congruence|].
    intros Hnot. rewrite Hfd', Hfd; [done| |].
    + intros ->. apply Hnot. apply elem_of_cons. by left.
    + intros Hin. apply Hnot. apply elem_of_cons. by right.
Qed.

Lemma X14_run_keeps_configuration_witness :
  EthernetServer.port (EthernetServer.mk 5003 8 (-1) [5%Z] []) = 5003%Z
  /\ EthernetServer.max_clients (EthernetServer.mk 5003 8 (-1) [5%Z] []) = 8%Z
  /\ (OpBegin ∉ [OpHasClient; OpAvailable] ->
      EthernetServer.sockfd (EthernetServer.mk 5003 8 (-1) [5%Z] [])
      = (-1)%Z).
Proof.
  apply (X14_run_keeps_configuration 1 [OpHasClient; OpAvailable]
           (EthernetServer.make 5003 8 (-1))
           (EthernetServer.mk 5003 8 (-1) [5%Z] [])
           (set_backlog quiet_world [(5, 0)]%Z)
           (set_backlog (set_backlog quiet_world [(5, 0)]%Z) [])).
  reflexivity.
Defined.

(** ** The string overload and the removal by index *)

Lemma strlen_prefix (pre post : list Z) :
  Forall (fun c => c <> 0%Z) pre -> strlen (pre ++ 0%Z :: post) = length pre.
Proof.
  induction 1 as [|c pre Hc _ IH]; [done|].
  simpl. destruct (Z.eqb_spec c 0); [done|]. by rewrite IH.
Qed.

(** X15: the string overload of [write] broadcasts the bytes before the
    first NUL and nothing after it: for a string whose bytes [pre] hold no
    NUL and are followed by one, [write(str)] is [write(pre, strlen(str))],
    whatever lies behind the NUL.  For the empty string this is a
    broadcast of no bytes, which still runs the loop, unlike the NULL
    pointer. *)
Theorem X15_write_str_stops_at_nul
        (fuel : nat) (s : EthernetServer.t) (w : World) (pre post : list Z) :
  Forall (fun c => c <> 0%Z) pre ->
  EthernetServer.write_str fuel s w (Some (pre ++ 0%Z :: post))
  = EthernetServer.write fuel s w pre.
Proof.
  intros Hpre. unfold EthernetServer.write_str.
  by rewrite (strlen_prefix pre post Hpre), take_app_length.
Qed.

Lemma X15_write_str_stops_at_nul_witness :
  EthernetServer.write_str 3 (EthernetServer.mk 5003 4 3 [5%Z] [])
    (set_peer quiet_world 5 true 0) (Some ([72; 105] ++ 0 :: [33])%Z)
  = EthernetServer.write 3 (EthernetServer.mk 5003 4 3 [5%Z] [])
      (set_peer quiet_world 5 true 0) [72; 105]%Z.
Proof.
  apply X15_write_str_stops_at_nul.
  apply Forall_cons_2; [lia|]. apply Forall_cons_2; [lia|]. apply Forall_nil_2.
Defined.

(** X16: [clients[i] = clients.back(); clients.pop_back()] with
    [i < clients.size()] removes the handle in slot [i] and nothing else.
    The vector gets one shorter; it holds the same handles as before less
    one occurrence of the removed one; every other slot that remains keeps
    its handle, and slot [i], unless it was the last, now holds the handle
    that was last. *)
Theorem X16_evict_at_swaps_last (v : list Z) (i : nat) (x : Z) :
  v !! i = Some x ->
  S (length (evict_at i v)) = length v
  /\ x :: evict_at i v ≡ₚ v
  /\ (forall j, j < length v - 1 -> j <> i -> evict_at i v !! j = v !! j)
  /\ (i < length v - 1 -> evict_at i v !! i = last v)
  /\ (i = length v - 1 -> evict_at i v = take i v).
Proof.
  intros Hi. pose proof (lookup_lt_Some _ _ _ Hi) as Hlt.
  split; [by apply (evict_at_length v i x)|].
  split; [by apply evict_at_perm|].
  assert (exists b, last v = Some b) as [b Hb].
  { apply last_is_Some. intros ->. simpl in Hlt. lia. }
  unfold evict_at, pop_back. rewrite Hb, length_insert.
  split; [|split].
  - intros j Hj Hne. rewrite lookup_take_lt by done.
    by rewrite list_lookup_insert_ne.
  - intros Hi'. rewrite lookup_take_lt by done.
    by rewrite list_lookup_insert_eq.
  - intros ->. apply list_eq. intros j.
    destruct (decide (j < length v - 1)) as [Hj|Hj].
    + rewrite !lookup_take_lt by done. rewrite list_lookup_insert_ne by lia. done.
    + rewrite !lookup_take_ge by lia. done.
Qed.

Lemma X16_evict_at_swaps_last_witness :
  S (length (evict_at 1 [5; 6; 7; 8]%Z)) = length [5; 6; 7; 8]%Z
  /\ 6%Z :: evict_at 1 [5; 6; 7; 8]%Z ≡ₚ [5; 6; 7; 8]%Z
  /\ (forall j, j < length [5; 6; 7; 8]%Z - 1 -> j <> 1 ->
                evict_at 1 [5; 6; 7; 8]%Z !! j = [5; 6; 7; 8]%Z !! j)
  /\ (1 < length [5; 6; 7; 8]%Z - 1 ->
      evict_at 1 [5; 6; 7; 8]%Z !! 1 = last [5; 6; 7; 8]%Z)
  /\ (1 = length [5; 6; 7; 8]%Z - 1 ->
      evict_at 1 [5; 6; 7; 8]%Z = take 1 [5; 6; 7; 8]%Z).
Proof.
  apply (X16_evict_at_swaps_last [5; 6; 7; 8]%Z 1 6%Z). reflexivity.
Defined.

(** X17: a live connection waiting to be claimed is always reported.  If
    [new_clients] holds a handle that is connected or has unread input,
    [hasClient] returns true, whether or not the pool is at the guard and
    whatever [accept] does. *)
Theorem X17_live_pending_is_reported
        (s : EthernetServer.t) (w : World) (h : Z) :
  h ∈ EthernetServer.new_clients s -> live w h ->
  (EthernetServer.hasClient s w).1.1 = true.
Proof.
  intros Hin Hlive.
  assert (h ∈ EthernetServer.new_clients ((EthernetServer._accept s w).1.2))
    as Hkept.
  { unfold EthernetServer._accept.
    destruct (EthernetServer.reclaim s w) as [s1|] eqn:Hr; [|done].
    destruct (reclaim_keeps_live _ _ _ _ Hr Hlive) as [_ Hn].
    destruct (os_accept w) as [[new_fd errno] w1].
    destruct (new_fd =? -1)%Z.
    - destruct (negb (errno =? EAGAIN)%Z && negb (errno =? EWOULDBLOCK)%Z);
        simpl; auto.
    - simpl. apply elem_of_app. left. auto. }
  unfold EthernetServer.hasClient.
  destruct (EthernetServer._accept s w) as [[r s1] w1]. simpl in Hkept |- *.
  destruct (EthernetServer.new_clients s1); [|done].
  by apply elem_of_nil in Hkept.
Qed.

Lemma X17_live_pending_is_reported_witness :
  (EthernetServer.hasClient (EthernetServer.mk 5003 2 3 [5; 6]%Z [6%Z])
     (set_peer quiet_world 6 false 3)).1.1 = true.
Proof.
  apply (X17_live_pending_is_reported _ _ 6%Z).
  - apply list_elem_of_In. simpl. auto.
  - right. simpl. lia.
Defined.
